(** * evil-cards server: the Game coordinator of [apps/server/src/game/logic.ts]

    A shallow embedding of the [Game] class: the session registry, the
    command handlers it subscribes on the controller's bus, and the four
    phase listeners it installs on a session's bus.  The [Session] class,
    the [EventBus] and the transport live in other files of the
    repository; what [logic.ts] uses of them is either modelled from the
    specification, and marked so, or taken as a collaborator. *)

From stdpp Require Import gmap strings list fin_maps.

Open Scope string_scope.
Open Scope list_scope.

(** ** Data model *)

(** [session.status]; the last phase is spelled [end] in the source. *)
Inductive Status := waiting | starting | voting | choosing | choosingbest | ended.

#[global] Instance Status_eq_dec : EqDecision Status.
Proof. solve_decision. Defined.

(** A participant record ([User] of [../ws/send]); [uid] is [user.id]. *)
Record User := mkUser {
  uid : string;
  username : string;
  avatarId : nat;
  host : bool;
  master : bool;
  disconnected : bool;
  voted : bool
}.

#[global] Instance User_eq_dec : EqDecision User.
Proof. solve_decision. Defined.

(** The closures [Game.startGame] registers on a session's bus, one per
    phase, in the order of the source (lines 181, 195, 219, 237). *)
Inductive Listener := onStarting | onVoting | onChoosing | onChoosingBest.

#[global] Instance Listener_eq_dec : EqDecision Listener.
Proof. solve_decision. Defined.

(** A [Session] object.  [logic.ts] reads [id], [status], [users],
    [redCard], [votes] and [eventBus]; [userSockets] and [whiteCards]
    stand for what lies behind the accessors [getUserSocket] and
    [getUserWhitecards].  User objects are referred to by their position
    in [users] (the list only grows), which is what these two maps are
    keyed by. *)
Record Session := mkSession {
  sid : string;
  status : Status;
  users : list User;
  redCard : option string;
  votes : list (string * string);
  userSockets : gmap nat nat;
  whiteCards : gmap nat (list string);
  eventBus : list (string * Listener)
}.

(** The two fields [logic.ts] attaches to a connection, and the number of
    ["close"] listeners it has registered on it. *)
Record Socket := mkSocket {
  session : option nat;
  user : option nat;
  closeListeners : nat
}.

(** [Game]: the registry [sessions] maps an identifier to a Session object,
    that is to its address in [heap]; [sockets] holds the connections. *)
Record Game := mkGame {
  sessions : gmap string nat;
  heap : list Session;
  sockets : gmap nat Socket
}.

(** Outbound messages: [type] and the fields of [details]. *)
Inductive Payload :=
| created (id : string) (st : Status) (us : list User) (userId : string)
| joined (id : string) (st : Status) (userId : string) (us : list User)
         (cards : list string) (red : option string)
| userjoined (us : list User)
| gamestart (st : Status)
| votingstarted (cards : list string) (red : option string) (us : list User)
                (st : Status) (vs : list (string * string))
| choosingstarted (st : Status) (vs : list (string * string)) (cards : list string)
| choosingbeststarted (st : Status).

Definition payload_type (p : Payload) : string :=
  match p with
  | created _ _ _ _ => "created"
  | joined _ _ _ _ _ _ => "joined"
  | userjoined _ => "userjoined"
  | gamestart _ => "gamestart"
  | votingstarted _ _ _ _ _ => "votingstarted"
  | choosingstarted _ _ _ => "choosingstarted"
  | choosingbeststarted _ => "choosingbeststarted"
  end.

(** The keys of the [details] object, in the order the source writes them. *)
Definition details_keys (p : Payload) : list string :=
  match p with
  | created _ _ _ _ => ["id"; "status"; "users"; "userId"]
  | joined _ _ _ _ _ _ => ["id"; "status"; "userId"; "users"; "whiteCards"; "redCard"]
  | userjoined _ => ["users"]
  | gamestart _ => ["status"]
  | votingstarted _ _ _ _ _ => ["whiteCards"; "redCard"; "users"; "status"; "votes"]
  | choosingstarted _ _ _ => ["status"; "votes"; "whiteCards"]
  | choosingbeststarted _ => ["status"]
  end.

Definition details_status (p : Payload) : option Status :=
  match p with
  | created _ st _ _ | joined _ st _ _ _ _ | gamestart st
  | votingstarted _ _ _ st _ | choosingstarted st _ _
  | choosingbeststarted st => Some st
  | userjoined _ => None
  end.

Definition details_whiteCards (p : Payload) : option (list string) :=
  match p with
  | joined _ _ _ _ c _ | votingstarted c _ _ _ _ | choosingstarted _ _ c => Some c
  | _ => None
  end.

Definition details_votes (p : Payload) : option (list (string * string)) :=
  match p with
  | votingstarted _ _ _ _ v | choosingstarted _ v _ => Some v
  | _ => None
  end.

Definition details_redCard (p : Payload) : option (option string) :=
  match p with
  | joined _ _ _ _ _ r | votingstarted _ r _ _ _ => Some r
  | _ => None
  end.

(** A message handed to the transport.  [UserSend u k p] is one evaluation
    of [session.getUserSocket(user).send(stringify(p))]: [u] is the user
    object as it is at that moment and [k] the connection the session has
    for it.  The phase listeners send to users that are not disconnected
    only; the loop of [Game.joinSession] sends to every user, and throws
    where the session has no connection for one. *)
Inductive Send :=
| SocketSend (socket : nat) (p : Payload)
| UserSend (u : User) (k : option nat) (p : Payload).

Definition recipient (m : Send) : option User :=
  match m with UserSend u _ _ => Some u | SocketSend _ _ => None end.

Definition payload (m : Send) : Payload :=
  match m with UserSend _ _ p | SocketSend _ p => p end.

(** The calls [Game] makes into a Session object. *)
Inductive SessionCall :=
| addUser (socket : nat) (name : string) (avatar : nat) (isHost : bool)
| reconnectUser (socket : nat) (u : nat) (avatar : nat)
| disconnectUser (u : nat)
| vote (u : nat) (text : string)
| choose (userId : string)
| chooseBest (userId : string)
| startGame
| clearListeners
| on (event : string) (l : Listener).

#[global] Instance SessionCall_eq_dec : EqDecision SessionCall.
Proof. solve_decision. Defined.

(** What a handler of [Game] does that can be seen from outside it. *)
Inductive Action :=
| Call (s : nat) (c : SessionCall)
| Sent (m : Send).

(** ** Effects: state, exceptions and a trace

    A JavaScript method mutates objects, may [throw], and calls out.  A
    thrown error does not undo earlier mutations, so the state and the
    trace are returned in every case.  [Stuck] is not a JavaScript
    outcome: it marks a reference of the model that points at nothing,
    which no run of the program produces. *)
Inductive Res (A : Type) := Ok (a : A) | Throw (msg : string) | Stuck.
Arguments Ok {A} a.
Arguments Throw {A} msg.
Arguments Stuck {A}.

Definition Eff (St T A : Type) : Type := St -> Res A * St * list T.

Definition ret {St T A} (a : A) : Eff St T A := fun s => (Ok a, s, []).

Definition bind {St T A B} (m : Eff St T A) (k : A -> Eff St T B) : Eff St T B :=
  fun s =>
    match m s with
    | (Ok a, s1, t1) => let '(r, s2, t2) := k a s1 in (r, s2, t1 ++ t2)
    | (Throw msg, s1, t1) => (Throw msg, s1, t1)
    | (Stuck, s1, t1) => (Stuck, s1, t1)
    end.

Definition throw {St T A} (msg : string) : Eff St T A := fun s => (Throw msg, s, []).
Definition stuck {St T A} : Eff St T A := fun s => (Stuck, s, []).
Definition get {St T} : Eff St T St := fun s => (Ok s, s, []).
Definition modify {St T} (f : St -> St) : Eff St T unit := fun s => (Ok tt, f s, []).
Definition tell {St T} (t : T) : Eff St T unit := fun s => (Ok tt, s, [t]).

Declare Scope eff_scope.
Delimit Scope eff_scope with eff.
Notation "x <- m ;; k" := (bind m (fun x => k))
  (at level 100, m at next level, right associativity) : eff_scope.
Notation "m >> k" := (bind m (fun _ => k))
  (at level 100, right associativity) : eff_scope.
Open Scope eff_scope.

Definition outcome {A St T} (r : Res A * St * list T) : Res A := r.1.1.
Definition final {A St T} (r : Res A * St * list T) : St := r.1.2.
Definition trace {A St T} (r : Res A * St * list T) : list T := r.2.

(** [array.forEach((x, i) => f(i, x))], counting from [i]. *)
Fixpoint forEach_from {St T A} (i : nat) (f : nat -> A -> Eff St T unit) (l : list A)
  : Eff St T unit :=
  match l with
  | [] => ret tt
  | x :: l' => f i x >> forEach_from (S i) f l'
  end.

Definition forEach {St T A} (f : nat -> A -> Eff St T unit) (l : list A) : Eff St T unit :=
  forEach_from 0 f l.

(** ** Errors

    The source throws [Error]s that carry a message.  The specification
    names kinds of failure; [kind_of] attaches its names to the messages
    of [logic.ts]. *)
Inductive ErrorKind :=
| SessionNotFound | InvalidPhase | PermissionDenied | DuplicateNickname
| AlreadyVoted | UnknownCard | MissingContext.

Definition kind_of (msg : string) : option ErrorKind :=
  if decide (msg = "session not found") then Some SessionNotFound
  else if decide (msg = "game is started already") then Some InvalidPhase
  else if decide (msg = "you can't vote now") then Some InvalidPhase
  else if decide (msg = "you can't choose") then Some InvalidPhase
  else if decide (msg = "you are not a host") then Some PermissionDenied
  else if decide (msg = "master can't vote") then Some PermissionDenied
  else if decide (msg = "only master can choose card to show") then Some PermissionDenied
  else if decide (msg = "nickname is taken") then Some DuplicateNickname
  else if decide (msg = "you have voted already") then Some AlreadyVoted
  else if decide (msg = "you have no such card") then Some UnknownCard
  else if decide (msg = "no session") then Some MissingContext
  else if decide (msg = "no user") then Some MissingContext
  else None.

Definition fails_with {A} (r : Res A) (k : ErrorKind) : Prop :=
  exists msg, r = Throw msg /\ kind_of msg = Some k.

(** ** Field updates *)

Definition set_status (st : Status) (s : Session) : Session :=
  mkSession (sid s) st (users s) (redCard s) (votes s) (userSockets s)
            (whiteCards s) (eventBus s).
Definition set_users (us : list User) (s : Session) : Session :=
  mkSession (sid s) (status s) us (redCard s) (votes s) (userSockets s)
            (whiteCards s) (eventBus s).
Definition set_redCard (r : option string) (s : Session) : Session :=
  mkSession (sid s) (status s) (users s) r (votes s) (userSockets s)
            (whiteCards s) (eventBus s).
Definition set_votes (vs : list (string * string)) (s : Session) : Session :=
  mkSession (sid s) (status s) (users s) (redCard s) vs (userSockets s)
            (whiteCards s) (eventBus s).
Definition set_userSockets (m : gmap nat nat) (s : Session) : Session :=
  mkSession (sid s) (status s) (users s) (redCard s) (votes s) m
            (whiteCards s) (eventBus s).
Definition set_whiteCards (m : gmap nat (list string)) (s : Session) : Session :=
  mkSession (sid s) (status s) (users s) (redCard s) (votes s) (userSockets s)
            m (eventBus s).
Definition set_eventBus (b : list (string * Listener)) (s : Session) : Session :=
  mkSession (sid s) (status s) (users s) (redCard s) (votes s) (userSockets s)
            (whiteCards s) b.

Definition set_avatarId (a : nat) (u : User) : User :=
  mkUser (uid u) (username u) a (host u) (master u) (disconnected u) (voted u).
Definition set_master (b : bool) (u : User) : User :=
  mkUser (uid u) (username u) (avatarId u) (host u) b (disconnected u) (voted u).
Definition set_disconnected (b : bool) (u : User) : User :=
  mkUser (uid u) (username u) (avatarId u) (host u) (master u) b (voted u).
Definition set_voted (b : bool) (u : User) : User :=
  mkUser (uid u) (username u) (avatarId u) (host u) (master u) (disconnected u) b.

Definition set_sessions (m : gmap string nat) (g : Game) : Game :=
  mkGame m (heap g) (sockets g).
Definition set_heap (h : list Session) (g : Game) : Game :=
  mkGame (sessions g) h (sockets g).
Definition set_sockets (m : gmap nat Socket) (g : Game) : Game :=
  mkGame (sessions g) (heap g) m.

(** ** EventBus *)

(** Modelled from the spec: the [EventBus] class is not in [logic.ts].
    [on] registers a handler for a named event, several per name allowed
    and invoked in registration order; [clearListeners] removes all
    handlers of all names; [emit] (below, [Session_emit]) invokes the
    handlers currently registered for the name, a failing handler
    aborting the rest. *)
Definition EventBus_on (event : string) (l : Listener) (bus : list (string * Listener))
  : list (string * Listener) := bus ++ [(event, l)].

Definition EventBus_clearListeners (bus : list (string * Listener))
  : list (string * Listener) := [].

Definition EventBus_handlers (event : string) (bus : list (string * Listener))
  : list Listener :=
  snd <$> filter (fun e => e.1 = event) bus.

(** ** Session accessors *)

(** Modelled from the spec: [Session.getUserSocket] and
    [Session.getUserWhitecards] are accessors that never mutate state;
    the connection of a user may be absent while it is disconnected. *)
Definition getUserSocket (s : Session) (u : nat) : option nat := userSockets s !! u.

Definition getUserWhitecards (s : Session) (u : nat) : list string :=
  default [] (whiteCards s !! u).

(** JavaScript truthiness of [session.redCard]: [null] and the empty
    string are falsy. *)
Definition truthy (r : option string) : bool :=
  match r with
  | None => false
  | Some t => negb (bool_decide (t = ""))
  end.

(** ** The phase listeners of [Game.startGame] (lines 181-250) *)

Definition starting_listener : Eff Session Send unit :=
  s0 <- get ;;
  forEach (fun i u =>
    if disconnected u then ret tt
    else
      s <- get ;;
      tell (UserSend u (getUserSocket s i) (gamestart (status s))))
    (users s0).

Definition voting_listener : Eff Session Send unit :=
  s0 <- get ;;
  forEach (fun i u =>
    if disconnected u then ret tt
    else
      s <- get ;;
      if negb (truthy (redCard s)) then throw "no red card"
      else
        tell (UserSend u (getUserSocket s i)
                (votingstarted (getUserWhitecards s i) (redCard s) (users s)
                               (status s) (votes s))))
    (users s0).

Definition choosing_listener : Eff Session Send unit :=
  s0 <- get ;;
  forEach (fun i u =>
    if disconnected u then ret tt
    else
      s <- get ;;
      tell (UserSend u (getUserSocket s i)
              (choosingstarted (status s) (votes s) (getUserWhitecards s i))))
    (users s0).

Definition choosingbest_listener : Eff Session Send unit :=
  s0 <- get ;;
  forEach (fun i u =>
    if disconnected u then ret tt
    else
      s <- get ;;
      tell (UserSend u (getUserSocket s i) (choosingbeststarted (status s))))
    (users s0).

Definition runListener (l : Listener) : Eff Session Send unit :=
  match l with
  | onStarting => starting_listener
  | onVoting => voting_listener
  | onChoosing => choosing_listener
  | onChoosingBest => choosingbest_listener
  end.

Definition Session_emit (event : string) : Eff Session Send unit :=
  s <- get ;;
  forEach (fun _ l => runListener l) (EventBus_handlers event (eventBus s)).

(** ** Inbound commands

    [ServerEvent] of [./types], as the handlers destructure it; every
    command carries the connection it arrived on. *)
Module ServerEvent.
Inductive t :=
| createsession (socket : nat) (username : string) (avatarId : nat)
| joinsession (sessionId : string) (socket : nat) (username : string) (avatarId : nat)
| choose (userId : string) (socket : nat)
| choosebest (userId : string) (socket : nat)
| startgame (socket : nat)
| vote (socket : nat) (text : string)
| lostconnection (socket : nat).
End ServerEvent.

(** ** Collaborators

    What the specification leaves to the Session class or to chance:
    identifier generation, the deal of a round, and the bodies of
    [Session.vote], [Session.choose] and [Session.chooseBest], which act on
    a session and may broadcast through its bus. *)
Class Collaborators := {
  newSessionId : Game -> string;
  newUserId : Session -> string;
  dealHand : Session -> nat -> list string;
  pickRedCard : Session -> string;
  pickMaster : Session -> nat;
  Session_vote : nat -> string -> Eff Session Send unit;
  Session_choose : string -> Eff Session Send unit;
  Session_chooseBest : string -> Eff Session Send unit
}.

Section Model.
Context {collab : Collaborators}.

(** ** Session *)

(** [session.status == "waiting" || session.status == "end"] (line 79). *)
Definition waitingState (s : Session) : bool :=
  bool_decide (status s = waiting) || bool_decide (status s = ended).

(** Modelled from the spec: [new Session()] is not in [logic.ts].  A
    session starts in [waiting] with no user and a generated identifier. *)
Definition Session_new (id : string) : Session :=
  mkSession id waiting [] None [] ∅ ∅ [].

(** Modelled from the spec: [Session.addUser] is not in [logic.ts].  It
    creates and appends a User and binds its connection; it fails if the
    username is already taken while join is open.  Returns the new user. *)
Definition after_add (socket : nat) (name : string) (avatar : nat) (isHost : bool)
    (s : Session) : Session :=
  let u := mkUser (newUserId s) name avatar isHost false false false in
  set_userSockets (<[length (users s) := socket]> (userSockets s))
    (set_users (users s ++ [u]) s).

Definition Session_addUser (socket : nat) (name : string) (avatar : nat) (isHost : bool)
  : Eff Session Send nat :=
  s <- get ;;
  if waitingState s && bool_decide (name ∈ username <$> users s)
  then throw "nickname is taken"
  else
    modify (after_add socket name avatar isHost) >>
    ret (length (users s)).

(** Modelled from the spec: [Session.reconnectUser] is not in [logic.ts].
    It rebinds the connection of an existing User, clears [disconnected]
    and updates the avatar. *)
Definition after_reconnect (socket i avatar : nat) (u : User) (s : Session) : Session :=
  set_userSockets (<[i := socket]> (userSockets s))
    (set_users (<[i := set_avatarId avatar (set_disconnected false u)]> (users s)) s).

Definition Session_reconnectUser (socket : nat) (i : nat) (avatar : nat)
  : Eff Session Send unit :=
  s <- get ;;
  match users s !! i with
  | None => stuck
  | Some u => modify (after_reconnect socket i avatar u)
  end.

(** Modelled from the spec: [Session.disconnectUser] is not in [logic.ts].
    It marks the user [disconnected] and drops its connection; the result
    tells whether this emptied the set of connected participants, in which
    case the session invokes the callback it was given. *)
Definition after_disconnect (i : nat) (u : User) (s : Session) : Session :=
  set_userSockets (delete i (userSockets s))
    (set_users (<[i := set_disconnected true u]> (users s)) s).

Definition Session_disconnectUser (i : nat) : Eff Session Send bool :=
  s <- get ;;
  match users s !! i with
  | None => stuck
  | Some u =>
      modify (after_disconnect i u) >>
      s' <- get ;;
      ret (forallb disconnected (users s'))
  end.

(** Modelled from the spec: the round setup of [Session.startGame] resets
    the round state, deals hands, and selects the prompt card and the
    master; the choices are the collaborators'. *)
Definition roundSetup (s : Session) : Session :=
  let m := pickMaster s in
  set_votes []
    (set_redCard (Some (pickRedCard s))
      (set_whiteCards (list_to_map (imap (fun i _ => (i, dealHand s i)) (users s)))
        (set_users (imap (fun i u => set_master (bool_decide (i = m)) (set_voted false u))
                         (users s)) s))).

(** Modelled from the spec: [Session.startGame] is not in [logic.ts].  It
    transitions through [starting] and [voting], emitting both events in
    sequence, with the round setup between them. *)
Definition Session_startGame : Eff Session Send unit :=
  modify (set_status starting) >>
  Session_emit "starting" >>
  modify roundSetup >>
  modify (set_status voting) >>
  Session_emit "voting".

(** ** Game *)

(** A connection the game has not touched yet has neither field set. *)
Definition getSocket (k : nat) (g : Game) : Socket :=
  default (mkSocket None None 0) (sockets g !! k).

Definition set_socket_session (k : nat) (v : option nat) : Eff Game Action unit :=
  modify (fun g =>
    let sk := getSocket k g in
    set_sockets (<[k := mkSocket v (user sk) (closeListeners sk)]> (sockets g)) g).

Definition set_socket_user (k : nat) (v : option nat) : Eff Game Action unit :=
  modify (fun g =>
    let sk := getSocket k g in
    set_sockets (<[k := mkSocket (session sk) v (closeListeners sk)]> (sockets g)) g).

(** [socket.on("close", () => this.disconnectUser(socket))] *)
Definition socket_on_close (k : nat) : Eff Game Action unit :=
  modify (fun g =>
    let sk := getSocket k g in
    set_sockets (<[k := mkSocket (session sk) (user sk) (S (closeListeners sk))]> (sockets g)) g).

(** Reading through a reference to a Session object, or to a User of it. *)
Definition deref (l : nat) : Eff Game Action Session :=
  fun g => match heap g !! l with
           | Some s => (Ok s, g, [])
           | None => (Stuck, g, [])
           end.

Definition derefUser (l i : nat) : Eff Game Action User :=
  s <- deref l ;;
  match users s !! i with
  | Some u => ret u
  | None => stuck
  end.

(** Running a method of the Session object at [l]; what it sends joins the
    trace of the game. *)
Definition store (l : nat) (s : Session) (g : Game) : Game :=
  set_heap (<[l := s]> (heap g)) g.

Definition onSession {A} (l : nat) (m : Eff Session Send A) : Eff Game Action A :=
  fun g => match heap g !! l with
           | Some s =>
               let '(r, s', t) := m s in (r, store l s' g, Sent <$> t)
           | None => (Stuck, g, [])
           end.

Definition callSession {A} (l : nat) (c : SessionCall) (m : Eff Session Send A)
  : Eff Game Action A :=
  tell (Call l c) >> onSession l m.

(** [Game.onSessionEnd] (lines 295-298) *)
Definition Game_onSessionEnd (l : nat) : Eff Game Action unit :=
  callSession l clearListeners (modify (fun s => set_eventBus (EventBus_clearListeners (eventBus s)) s)) >>
  s <- deref l ;;
  modify (fun g => set_sessions (delete (sid s) (sessions g)) g).

(** [Game.disconnectUser] (lines 29-40) *)
Definition Game_disconnectUser (socket : nat) : Eff Game Action unit :=
  g <- get ;;
  match session (getSocket socket g), user (getSocket socket g) with
  | Some l, Some i =>
      emptied <- callSession l (disconnectUser i) (Session_disconnectUser i) ;;
      (if emptied : bool then Game_onSessionEnd l else ret tt) >>
      set_socket_user socket None >>
      set_socket_session socket None
  | _, _ => ret tt
  end.

(** [Game.createSession] (lines 42-67) *)
Definition Game_createSession (socket : nat) (name : string) (avatar : nat)
  : Eff Game Action unit :=
  g <- get ;;
  let l := length (heap g) in
  modify (set_heap (heap g ++ [Session_new (newSessionId g)])) >>
  u <- callSession l (addUser socket name avatar true)
         (Session_addUser socket name avatar true) ;;
  s <- deref l ;;
  modify (fun g => set_sessions (<[sid s := l]> (sessions g)) g) >>
  set_socket_session socket (Some l) >>
  set_socket_user socket (Some u) >>
  s <- deref l ;;
  usr <- derefUser l u ;;
  tell (Sent (SocketSend socket (created (sid s) (status s) (users s) (uid usr)))) >>
  socket_on_close socket.

(** [array.findIndex]: the position of the first match, [-1] if none. *)
Definition findIndex {A} (P : A -> Prop) `{forall x, Decision (P x)} (l : list A) : Z :=
  match list_find P l with
  | Some (i, _) => Z.of_nat i
  | None => (-1)%Z
  end.

(** The [TypeError] of JavaScript for [userSocket.send] when [userSocket]
    is no object (the text is the one V8 gives for [null]). *)
Definition TypeError_send : string :=
  "Cannot read properties of null (reading 'send')".

(** [userSocket.send(stringify(p))] in the loop of [Game.joinSession],
    where [userSocket] is what [session.getUserSocket(user)] gave: with no
    connection, reading [send] throws and nothing is sent. *)
Definition send_through (userSocket : option nat) (u : User) (p : Payload)
  : Eff Game Action unit :=
  match userSocket with
  | Some _ => tell (Sent (UserSend u userSocket p))
  | None => throw TypeError_send
  end.

(** The callback of the broadcast loop of [Game.joinSession] (lines 101-128). *)
Definition join_broadcast (l : nat) (newUser : User) (i : nat) (u : User)
  : Eff Game Action unit :=
  s <- deref l ;;
  let userSocket := getUserSocket s i in
  if bool_decide (uid u = uid newUser) then
    send_through userSocket u
      (joined (sid s) (status s) (uid newUser) (users s)
              (getUserWhitecards s i) (redCard s))
  else
    send_through userSocket u (userjoined (users s)).

(** The second half of [Game.joinSession] (lines 98-130): bind the
    connection, tell every user of the session, watch for ["close"]. *)
Definition join_announce (l : nat) (socket : nat) (newUser : nat) : Eff Game Action unit :=
  set_socket_session socket (Some l) >>
  set_socket_user socket (Some newUser) >>
  s' <- deref l ;;
  nu <- derefUser l newUser ;;
  forEach (join_broadcast l nu) (users s') >>
  socket_on_close socket.

(** [Game.joinSession] (lines 69-131) *)
Definition Game_joinSession (sessionId : string) (socket : nat) (name : string)
    (avatar : nat) : Eff Game Action unit :=
  g <- get ;;
  match sessions g !! sessionId with
  | None => throw "session not found"
  | Some l =>
      s <- deref l ;;
      let previousUser := list_find (fun u => username u = name) (users s) in
      newUser <-
        match previousUser, negb (waitingState s) with
        | Some (i, _), true =>
            callSession l (reconnectUser socket i avatar)
              (Session_reconnectUser socket i avatar) >>
            ret i
        | _, _ =>
            if negb (waitingState s) then throw "game is started already"
            else if bool_decide (findIndex (fun u => username u = name) (users s) ≠ (-1)%Z)
            then throw "nickname is taken"
            else
              callSession l (addUser socket name avatar false)
                (Session_addUser socket name avatar false)
        end ;;
      join_announce l socket newUser
  end.

(** [Game.vote] (lines 133-157) *)
Definition Game_vote (socket : nat) (text : string) : Eff Game Action unit :=
  g <- get ;;
  match session (getSocket socket g) with
  | None => throw "no session"
  | Some l =>
      match user (getSocket socket g) with
      | None => throw "no user"
      | Some i =>
          u <- derefUser l i ;;
          if master u then throw "master can't vote"
          else
            s <- deref l ;;
            if bool_decide (status s ≠ voting) then throw "you can't vote now"
            else if negb (bool_decide (text ∈ getUserWhitecards s i))
            then throw "you have no such card"
            else if voted u then throw "you have voted already"
            else callSession l (vote i text) (Session_vote i text)
      end
  end.

(** The listeners [Game.startGame] installs (lines 180-250), in order. *)
Definition phase_listeners : list (string * Listener) :=
  [("starting", onStarting); ("voting", onVoting);
   ("choosing", onChoosing); ("choosingbest", onChoosingBest)].

Definition eventBus_on (l : nat) (event : string) (h : Listener) : Eff Game Action unit :=
  callSession l (on event h)
    (modify (fun s => set_eventBus (EventBus_on event h (eventBus s)) s)).

(** [Game.startGame] (lines 159-253) *)
Definition Game_startGame (socket : nat) : Eff Game Action unit :=
  g <- get ;;
  match session (getSocket socket g) with
  | None => throw "no session"
  | Some l =>
      match user (getSocket socket g) with
      | None => throw "no user"
      | Some i =>
          u <- derefUser l i ;;
          if negb (host u) then throw "you are not a host"
          else
            s <- deref l ;;
            if bool_decide (status s ≠ waiting) && bool_decide (status s ≠ ended)
            then throw "game is started already"
            else if (length (users s) <? 0)%nat then throw "need more players"
            else
              callSession l clearListeners
                (modify (fun s => set_eventBus (EventBus_clearListeners (eventBus s)) s)) >>
              eventBus_on l "starting" onStarting >>
              eventBus_on l "voting" onVoting >>
              eventBus_on l "choosing" onChoosing >>
              eventBus_on l "choosingbest" onChoosingBest >>
              callSession l startGame Session_startGame
      end
  end.

(** [Game.choose] (lines 255-273) *)
Definition Game_choose (userId : string) (socket : nat) : Eff Game Action unit :=
  g <- get ;;
  match session (getSocket socket g) with
  | None => throw "no session"
  | Some l =>
      s <- deref l ;;
      if bool_decide (status s ≠ choosing) then throw "you can't choose"
      else
        match user (getSocket socket g) with
        | None => throw "no user"
        | Some i =>
            u <- derefUser l i ;;
            if negb (master u) then throw "only master can choose card to show"
            else callSession l (choose userId) (Session_choose userId)
        end
  end.

(** [Game.chooseBest] (lines 275-293) *)
Definition Game_chooseBest (userId : string) (socket : nat) : Eff Game Action unit :=
  g <- get ;;
  match session (getSocket socket g) with
  | None => throw "no session"
  | Some l =>
      s <- deref l ;;
      if bool_decide (status s ≠ choosingbest) then throw "you can't choose"
      else
        match user (getSocket socket g) with
        | None => throw "no user"
        | Some i =>
            u <- derefUser l i ;;
            if negb (master u) then throw "only master can choose card to show"
            else callSession l (chooseBest userId) (Session_chooseBest userId)
        end
  end.

(** The subscriptions of the constructor (lines 17-26): one handler per
    command kind on the controller's bus. *)
Definition Game_handle (e : ServerEvent.t) : Eff Game Action unit :=
  match e with
  | ServerEvent.createsession socket name avatar => Game_createSession socket name avatar
  | ServerEvent.joinsession sessionId socket name avatar =>
      Game_joinSession sessionId socket name avatar
  | ServerEvent.choose userId socket => Game_choose userId socket
  | ServerEvent.choosebest userId socket => Game_chooseBest userId socket
  | ServerEvent.startgame socket => Game_startGame socket
  | ServerEvent.vote socket text => Game_vote socket text
  | ServerEvent.lostconnection socket => Game_disconnectUser socket
  end.

(** [new Game()]: an empty registry. *)
Definition Game_new : Game := mkGame ∅ [] ∅.

End Model.

(** ** Vocabulary of the statements *)

(** A command is rejected: it throws a failure of kind [k], leaves the
    game as it was and neither calls a session nor sends anything. *)
Definition rejects {A} (r : Res A * Game * list Action) (g : Game) (k : ErrorKind) : Prop :=
  fails_with (outcome r) k /\ final r = g /\ trace r = [].

(** The caller of a command: the user object its connection is bound to. *)
Definition caller (socket : nat) (g : Game) (s : Session) : option User :=
  i ← user (getSocket socket g); users s !! i.

(** The handler called method [c] of the Session object at [l]. *)
Definition invoked {A} (l : nat) (c : SessionCall) (r : Res A * Game * list Action) : Prop :=
  Call l c ∈ trace r.

(** The messages a loop over [l] produces when its callback contributes
    [h i x] for the element [x] at position [i], counting from [k]. *)
Fixpoint gather_from {A T} (k : nat) (h : nat -> A -> list T) (l : list A) : list T :=
  match l with
  | [] => []
  | x :: l' => h k x ++ gather_from (S k) h l'
  end.

Definition gather {A T} (h : nat -> A -> list T) (l : list A) : list T :=
  gather_from 0 h l.

(** A broadcast of [p] to the connected users of [s]. *)
Definition to_connected (s : Session) (p : nat -> Payload) : list Send :=
  gather (fun i u => if disconnected u then []
                     else [UserSend u (getUserSocket s i) (p i)]) (users s).

(** What the loop of [Game.joinSession] sends in session [s] when
    [newUser] has joined and the loop runs to its end: one message per
    user of the list. *)
Definition join_messages (s : Session) (newUser : User) : list Action :=
  gather (fun i u =>
    [Sent (UserSend u (getUserSocket s i)
             (if bool_decide (uid u = uid newUser)
              then joined (sid s) (status s) (uid newUser) (users s)
                          (getUserWhitecards s i) (redCard s)
              else userjoined (users s)))]) (users s).

(** The connection [socket] once a join has bound it to user [i] of the
    session at [l]. *)
Definition bound_socket (socket l i : nat) (g : Game) : Socket :=
  mkSocket (Some l) (Some i) (S (closeListeners (getSocket socket g))).

(** What the specification says of a phase broadcast in session [s]: no
    prompt card, the votes of the round, and for each recipient its own
    hand. *)
Definition hand_and_votes_without_prompt (s : Session) (t : list Send) : Prop :=
  Forall (fun m =>
    details_redCard (payload m) = None /\
    details_votes (payload m) = Some (votes s) /\
    exists i u, users s !! i = Some u /\ recipient m = Some u /\
      details_whiteCards (payload m) = Some (getUserWhitecards s i)) t.

(** Two orders in which a startgame may treat the bus of the session at
    [l]: the listeners are cleared, installed, and then the session is
    started; or cleared, the session started, and then installed. *)
Definition clear_install_start (l : nat) (t : list Action) : Prop :=
  exists c st,
    t !! c = Some (Call l clearListeners) /\
    t !! st = Some (Call l startGame) /\
    c < st /\
    forall e h k, t !! k = Some (Call l (on e h)) -> c < k < st.

Definition clear_start_install (l : nat) (t : list Action) : Prop :=
  exists c st,
    t !! c = Some (Call l clearListeners) /\
    t !! st = Some (Call l startGame) /\
    c < st /\
    forall e h k, t !! k = Some (Call l (on e h)) -> st < k.

(** The users a list of actions sends to, in order. *)
Definition recipients (t : list Action) : list User :=
  omap (fun a => match a with Sent m => recipient m | Call _ _ => None end) t.

Definition sends (t : list Action) : list Send :=
  omap (fun a => match a with Sent m => Some m | Call _ _ => None end) t.

Definition calls (t : list Action) : list SessionCall :=
  omap (fun a => match a with Call _ c => Some c | Sent _ => None end) t.

(** ** A sample of the collaborators, to run the handlers on concrete input *)

Definition sample_vote (i : nat) (text : string) : Eff Session Send unit :=
  s <- get ;;
  match users s !! i with
  | None => stuck
  | Some u =>
      modify (fun s =>
        set_votes (votes s ++ [(uid u, text)])
          (set_whiteCards
             (<[i := filter (fun c => c ≠ text) (getUserWhitecards s i)]> (whiteCards s))
             (set_users (<[i := set_voted true u]> (users s)) s))) >>
      s' <- get ;;
      if forallb (fun v => master v || voted v || disconnected v) (users s')
      then modify (set_status choosing) >> Session_emit "choosing"
      else ret tt
  end.

Definition sample_choose (userId : string) : Eff Session Send unit :=
  modify (set_status choosingbest) >> Session_emit "choosingbest".

Definition sample_chooseBest (userId : string) : Eff Session Send unit :=
  modify (set_status ended).

Definition digit (n : nat) : string :=
  String (Ascii.ascii_of_nat (48 + n)) EmptyString.

Definition sample : Collaborators := {|
  newSessionId := fun g => "room" +:+ digit (length (heap g));
  newUserId := fun s => "u" +:+ digit (length (users s));
  dealHand := fun _ i => ["w" +:+ digit i +:+ "a"; "w" +:+ digit i +:+ "b"];
  pickRedCard := fun _ => "red";
  pickMaster := fun _ => 0;
  Session_vote := sample_vote;
  Session_choose := sample_choose;
  Session_chooseBest := sample_chooseBest
|}.

(** Running a sequence of commands, keeping the last state; a command that
    throws is reported to its sender and the next one is handled. *)
Definition replay {collab : Collaborators} (es : list ServerEvent.t) (g : Game) : Game :=
  foldl (fun g e => final (Game_handle e g)) g es.

(** ** Sample runs

    One room: alice creates it on connection 1, bob and carol join on
    connections 2 and 3, alice starts the game, bob and carol vote, alice
    chooses.  In [g_dropped] alice and bob have lost their connections
    during the vote. *)
Module Run.
Import ServerEvent.

Definition play : list ServerEvent.t -> Game -> Game := replay (collab := sample).

Definition g_solo : Game := play [createsession 1 "alice" 0] Game_new.
Definition g_lobby : Game :=
  play [joinsession "room0" 2 "bob" 1; joinsession "room0" 3 "carol" 2] g_solo.
Definition g_voting : Game := play [startgame 1] g_lobby.
Definition g_choosing : Game := play [vote 2 "w1a"; vote 3 "w2a"] g_voting.
Definition g_best : Game := play [choose "u1" 1] g_choosing.
Definition g_dropped : Game := play [lostconnection 1; lostconnection 2] g_voting.
Definition g_host_away : Game := play [lostconnection 1] g_lobby.
Definition g_bob_away : Game := play [lostconnection 2] g_voting.
Definition g_carol_away : Game := play [lostconnection 3] g_voting.

(** The one session of a sample game. *)
Definition room (g : Game) : Session := default (Session_new "") (heap g !! 0).

Definition alice : User := mkUser "u0" "alice" 0 true false false false.
Definition bob : User := mkUser "u1" "bob" 1 false false false false.
Definition carol : User := mkUser "u2" "carol" 2 false false false false.
End Run.

(** ** Vocabulary of the further properties *)

(** The connection a command arrived on. *)
Definition socket_of (e : ServerEvent.t) : nat :=
  match e with
  | ServerEvent.createsession socket _ _ => socket
  | ServerEvent.joinsession _ socket _ _ => socket
  | ServerEvent.choose _ socket => socket
  | ServerEvent.choosebest _ socket => socket
  | ServerEvent.startgame socket => socket
  | ServerEvent.vote socket _ => socket
  | ServerEvent.lostconnection socket => socket
  end.

(** The Session object a command works on: the one it creates, the one
    the registry holds for the identifier of a join, and otherwise the one
    its connection is bound to. *)
Definition touched (e : ServerEvent.t) (g : Game) : option nat :=
  match e with
  | ServerEvent.createsession _ _ _ => Some (length (heap g))
  | ServerEvent.joinsession sessionId _ _ _ => sessions g !! sessionId
  | _ => session (getSocket (socket_of e) g)
  end.

(** A program leaves the part [view] of the game as it found it, whatever
    its outcome. *)
Definition keeps {X A} (view : Game -> X) (m : Eff Game Action A) : Prop :=
  forall g, view (final (m g)) = view g.

(** The message of the join loop for the user [u] at position [i]. *)
Definition join_message (s : Session) (newUser : User) (i : nat) (u : User) : Send :=
  UserSend u (getUserSocket s i)
    (if bool_decide (uid u = uid newUser)
     then joined (sid s) (status s) (uid newUser) (users s)
                 (getUserWhitecards s i) (redCard s)
     else userjoined (users s)).

(** The run of the join loop in session [s], from position [k] on: it
    stops with a [TypeError] at the first user the session has no
    connection for. *)
Fixpoint join_loop_from (s : Session) (newUser : User) (k : nat) (us : list User)
  : Res unit * list Action :=
  match us with
  | [] => (Ok tt, [])
  | u :: us' =>
      match getUserSocket s k with
      | None => (Throw TypeError_send, [])
      | Some _ =>
          let '(r, t) := join_loop_from s newUser (S k) us' in
          (r, Sent (join_message s newUser k u) :: t)
      end
  end.

Definition join_loop (s : Session) (newUser : User) : Res unit * list Action :=
  join_loop_from s newUser 0 (users s).

(** The session holds a connection for every user of its list. *)
Definition every_user_connected (s : Session) : Prop :=
  forall i, i < length (users s) -> is_Some (getUserSocket s i).

(** The game after the second half of a join whose loop ended in [r]: the
    connection is bound, and watched for ["close"] if the loop returned. *)
Definition announced (socket l i : nat) (r : Res unit) (g : Game) : Game :=
  let n := closeListeners (getSocket socket g) in
  set_sockets
    (<[socket := mkSocket (Some l) (Some i)
                   (match r with Ok _ => S n | _ => n end)]> (sockets g)) g.

(** The two commands that write to the registry. *)
Definition registry_command (e : ServerEvent.t) : bool :=
  match e with
  | ServerEvent.createsession _ _ _ | ServerEvent.lostconnection _ => true
  | _ => false
  end.

(** Every reference the game holds points at something: an identifier of
    the registry at a Session object, the session of a connection at a
    Session object, and the user of a connection at a user of the list of
    that session. *)
Definition well_formed (g : Game) : Prop :=
  (forall id l, sessions g !! id = Some l -> l < length (heap g)) /\
  (forall k l, session (getSocket k g) = Some l ->
     exists s, heap g !! l = Some s /\
               forall i, user (getSocket k g) = Some i -> i < length (users s)).

(** The connections a session holds are those of its connected users: a
    user of the list has a connection exactly when it is not marked
    disconnected. *)
Definition connections_match (s : Session) : Prop :=
  forall i u, users s !! i = Some u ->
    (disconnected u = false <-> is_Some (getUserSocket s i)).

(** The same, of every Session object of the game. *)
Definition connections_valid (g : Game) : Prop :=
  forall l s, heap g !! l = Some s -> connections_match s.

(** A message that goes through a connection the session holds. *)
Definition through_connection (m : Send) : Prop :=
  exists u k p, m = UserSend u (Some k) p.

(** What the invariant asks of the collaborators: [Session.vote],
    [Session.choose] and [Session.chooseBest] remove no user from the list,
    work on the user object they are given, and leave the connections
    and the [disconnected] marks in step. *)
Class Disciplined (collab : Collaborators) : Prop := {
  vote_keeps_connections : forall i text s,
    connections_match s -> connections_match (final (Session_vote i text s));
  choose_keeps_connections : forall userId s,
    connections_match s -> connections_match (final (Session_choose userId s));
  chooseBest_keeps_connections : forall userId s,
    connections_match s -> connections_match (final (Session_chooseBest userId s));
  vote_keeps_users : forall i text s,
    length (users s) <= length (users (final (Session_vote i text s)));
  choose_keeps_users : forall userId s,
    length (users s) <= length (users (final (Session_choose userId s)));
  chooseBest_keeps_users : forall userId s,
    length (users s) <= length (users (final (Session_chooseBest userId s)));
  vote_not_stuck : forall i text s,
    i < length (users s) -> outcome (Session_vote i text s) ≠ Stuck;
  choose_not_stuck : forall userId s, outcome (Session_choose userId s) ≠ Stuck;
  chooseBest_not_stuck : forall userId s, outcome (Session_chooseBest userId s) ≠ Stuck
}.

(** * Properties *)

Lemma rejects_throw {A} (g : Game) (msg : string) (k : ErrorKind) :
  kind_of msg = Some k -> rejects (A := A) (Throw msg, g, []) g k.
Proof.
  intros Hk. repeat split. exists msg. split; [reflexivity | exact Hk].
Qed.

Lemma not_invoked_silent {A} (l : nat) (c : SessionCall) (r : Res A) (g : Game) :
  ~ invoked l c (r, g, []).
Proof. unfold invoked. simpl. apply not_elem_of_nil. Qed.

(** Closing the cases of a guard cascade once the branch taken is known. *)
Ltac guard_case :=
  intros;
  first
    [ congruence
    | contradiction
    | apply rejects_throw; reflexivity
    | reflexivity
    | solve [repeat split; first [assumption | reflexivity]]
    | exfalso; eapply not_invoked_silent; eassumption
    | destruct_and?; congruence
    | destruct_and?; contradiction
    | idtac ].

Ltac guard_cases :=
  repeat match goal with
         | |- _ /\ _ => split
         | |- _ <-> _ => split
         end;
  guard_case.

Section Properties.
Context {collab : Collaborators}.

(** ** The effect layer *)

Lemma callSession_run {A} (l : nat) (c : SessionCall) (m : Eff Session Send A)
    (g : Game) (s : Session) :
  heap g !! l = Some s ->
  callSession l c m g =
    (outcome (m s), store l (final (m s)) g, Call l c :: (Sent <$> trace (m s))).
Proof.
  intros Hl. unfold callSession, bind, tell, onSession. simpl. rewrite Hl.
  destruct (m s) as [[r s'] t]. reflexivity.
Qed.

Lemma store_lookup (l : nat) (s s' : Session) (g : Game) :
  heap g !! l = Some s -> heap (store l s' g) !! l = Some s'.
Proof.
  intros Hl. simpl. apply list_lookup_insert_eq. eapply lookup_lt_Some, Hl.
Qed.

Lemma store_store (l : nat) (s1 s2 : Session) (g : Game) :
  store l s2 (store l s1 g) = store l s2 g.
Proof.
  unfold store, set_heap. simpl. rewrite list_insert_insert_eq. reflexivity.
Qed.

(** ** Guards of the command handlers *)

Lemma vote_run (socket : nat) (text : string) (g : Game) (l i : nat)
    (s : Session) (u : User) :
  session (getSocket socket g) = Some l ->
  user (getSocket socket g) = Some i ->
  heap g !! l = Some s ->
  users s !! i = Some u ->
  Game_vote socket text g =
    if master u then (Throw "master can't vote", g, [])
    else if bool_decide (status s ≠ voting) then (Throw "you can't vote now", g, [])
    else if negb (bool_decide (text ∈ getUserWhitecards s i))
         then (Throw "you have no such card", g, [])
    else if voted u then (Throw "you have voted already", g, [])
    else callSession l (vote i text) (Session_vote i text) g.
Proof.
  intros Hs Hu Hl Hi.
  unfold Game_vote, bind, get, derefUser, deref, bind, ret, throw. simpl.
  rewrite Hs, Hu, Hl. simpl. rewrite Hi. simpl.
  destruct (master u); [reflexivity|].
  rewrite Hl. simpl.
  destruct (bool_decide (status s ≠ voting)); [reflexivity|].
  destruct (negb _); [reflexivity|].
  destruct (voted u); [reflexivity|].
  destruct (callSession _ _ _ g) as [[r g'] t]. reflexivity.
Qed.

(** C6. A vote command on a connection bound to a session and a user is
    rejected with PermissionDenied when the caller is the master; else
    with InvalidPhase when the status is not [voting]; else with
    UnknownCard when the text is not in the caller's hand; else with
    AlreadyVoted when the caller has voted already.  [session.vote] is
    invoked exactly when none of the four holds. *)
Theorem vote_guards (socket : nat) (text : string) (g : Game) (l i : nat)
    (s : Session) (u : User) :
  session (getSocket socket g) = Some l ->
  user (getSocket socket g) = Some i ->
  heap g !! l = Some s ->
  users s !! i = Some u ->
  let r := Game_vote socket text g in
  (master u = true -> rejects r g PermissionDenied) /\
  (master u = false -> status s ≠ voting -> rejects r g InvalidPhase) /\
  (master u = false -> status s = voting -> text ∉ getUserWhitecards s i ->
     rejects r g UnknownCard) /\
  (master u = false -> status s = voting -> text ∈ getUserWhitecards s i ->
     voted u = true -> rejects r g AlreadyVoted) /\
  (master u = false -> status s = voting -> text ∈ getUserWhitecards s i ->
     voted u = false -> r = callSession l (vote i text) (Session_vote i text) g) /\
  (invoked l (vote i text) r <->
     master u = false /\ status s = voting /\ text ∈ getUserWhitecards s i /\
     voted u = false).
Proof.
  intros Hs Hu Hl Hi r. subst r. rewrite (vote_run _ _ _ _ _ _ _ Hs Hu Hl Hi).
  destruct (master u) eqn:Hm.
  { guard_cases. }
  destruct (decide (status s = voting)) as [Hst | Hst].
  2: { rewrite (bool_decide_eq_true_2 _ Hst). guard_cases. }
  rewrite bool_decide_eq_false_2 by (intros H; exact (H Hst)).
  destruct (decide (text ∈ getUserWhitecards s i)) as [Hc | Hc].
  2: { rewrite (bool_decide_eq_false_2 _ Hc). simpl. guard_cases. }
  rewrite (bool_decide_eq_true_2 _ Hc). simpl.
  destruct (voted u) eqn:Hv.
  { guard_cases. }
  guard_cases.
  unfold invoked. rewrite (callSession_run _ _ _ _ _ Hl). apply list_elem_of_here.
Qed.


Lemma callSession_modify_then {B} (l : nat) (c : SessionCall) (f : Session -> Session)
    (k : unit -> Eff Game Action B) (g : Game) (s : Session) :
  heap g !! l = Some s ->
  bind (callSession l c (modify f)) k g =
    let r := k tt (store l (f s) g) in
    (outcome r, final r, Call l c :: trace r).
Proof.
  intros Hl. unfold bind at 1. rewrite (callSession_run _ _ _ _ _ Hl). simpl.
  destruct (k tt _) as [[r g'] t]. reflexivity.
Qed.

Lemma install_and_start_run (l : nat) (g : Game) (s : Session) :
  heap g !! l = Some s ->
  let s1 := set_eventBus phase_listeners s in
  (callSession l clearListeners
     (modify (fun s => set_eventBus (EventBus_clearListeners (eventBus s)) s)) >>
   eventBus_on l "starting" onStarting >>
   eventBus_on l "voting" onVoting >>
   eventBus_on l "choosing" onChoosing >>
   eventBus_on l "choosingbest" onChoosingBest >>
   callSession l startGame Session_startGame) g =
  (outcome (Session_startGame s1),
   store l (final (Session_startGame s1)) g,
   [Call l clearListeners; Call l (on "starting" onStarting);
    Call l (on "voting" onVoting); Call l (on "choosing" onChoosing);
    Call l (on "choosingbest" onChoosingBest); Call l startGame]
   ++ (Sent <$> trace (Session_startGame s1))).
Proof.
  intros Hl s1. unfold eventBus_on.
  rewrite (callSession_modify_then _ _ _ _ _ _ Hl).
  do 4 (erewrite callSession_modify_then by (eapply store_lookup, Hl);
        rewrite store_store).
  erewrite callSession_run by (eapply store_lookup, Hl).
  rewrite store_store. reflexivity.
Qed.


Lemma startGame_run (socket : nat) (g : Game) (l i : nat) (s : Session) (u : User) :
  session (getSocket socket g) = Some l ->
  user (getSocket socket g) = Some i ->
  heap g !! l = Some s ->
  users s !! i = Some u ->
  Game_startGame socket g =
    if negb (host u) then (Throw "you are not a host", g, [])
    else if bool_decide (status s ≠ waiting) && bool_decide (status s ≠ ended)
         then (Throw "game is started already", g, [])
    else
      let s1 := set_eventBus phase_listeners s in
      (outcome (Session_startGame s1),
       store l (final (Session_startGame s1)) g,
       [Call l clearListeners; Call l (on "starting" onStarting);
        Call l (on "voting" onVoting); Call l (on "choosing" onChoosing);
        Call l (on "choosingbest" onChoosingBest); Call l startGame]
       ++ (Sent <$> trace (Session_startGame s1))).
Proof.
  intros Hs Hu Hl Hi.
  unfold Game_startGame.
  unfold bind at 1, get. rewrite Hs, Hu.
  unfold bind at 1, derefUser, bind at 1, deref. rewrite Hl, Hi. simpl.
  destruct (host u); simpl; [|reflexivity].
  unfold bind at 1. rewrite Hl. simpl.
  destruct (bool_decide (status s ≠ waiting) && bool_decide (status s ≠ ended));
    [reflexivity|].
  rewrite (install_and_start_run _ _ _ Hl). reflexivity.
Qed.

(** C7. A startgame command on a connection bound to a session and a
    user is rejected with PermissionDenied when the caller is not the
    host; else with InvalidPhase when the status is neither [waiting] nor
    [end]; otherwise the handler goes on to call [session.startGame()]. *)
Theorem startgame_guards (socket : nat) (g : Game) (l i : nat) (s : Session) (u : User) :
  session (getSocket socket g) = Some l ->
  user (getSocket socket g) = Some i ->
  heap g !! l = Some s ->
  users s !! i = Some u ->
  let r := Game_startGame socket g in
  (host u = false -> rejects r g PermissionDenied) /\
  (host u = true -> status s ≠ waiting -> status s ≠ ended ->
     rejects r g InvalidPhase) /\
  (host u = true -> status s = waiting \/ status s = ended ->
     invoked l startGame r) /\
  (invoked l startGame r ->
     host u = true /\ (status s = waiting \/ status s = ended)).
Proof.
  intros Hs Hu Hl Hi r. subst r. rewrite (startGame_run _ _ _ _ _ _ Hs Hu Hl Hi).
  destruct (host u) eqn:Hh; simpl.
  2: { guard_cases. }
  destruct (decide (status s = waiting)) as [Hw | Hw].
  { rewrite (bool_decide_eq_false_2 (status s ≠ waiting)) by (intros H; exact (H Hw)).
    simpl. guard_cases.
    - unfold invoked. simpl. repeat first [apply list_elem_of_here | apply list_elem_of_further].
    - split; [reflexivity | left; assumption]. }
  rewrite (bool_decide_eq_true_2 _ Hw).
  destruct (decide (status s = ended)) as [He | He].
  { rewrite (bool_decide_eq_false_2 (status s ≠ ended)) by (intros H; exact (H He)).
    simpl. guard_cases.
    - unfold invoked. simpl. repeat first [apply list_elem_of_here | apply list_elem_of_further].
    - split; [reflexivity | right; assumption]. }
  rewrite (bool_decide_eq_true_2 _ He). simpl. guard_cases.
  match goal with H : _ \/ _ |- _ => destruct H; contradiction end.
Qed.


Lemma choose_run (userId : string) (socket : nat) (g : Game) (l : nat) (s : Session) :
  session (getSocket socket g) = Some l ->
  heap g !! l = Some s ->
  Game_choose userId socket g =
    if bool_decide (status s ≠ choosing) then (Throw "you can't choose", g, [])
    else match user (getSocket socket g) with
         | None => (Throw "no user", g, [])
         | Some i =>
             match users s !! i with
             | None => (Stuck, g, [])
             | Some u =>
                 if negb (master u)
                 then (Throw "only master can choose card to show", g, [])
                 else callSession l (choose userId) (Session_choose userId) g
             end
         end.
Proof.
  intros Hs Hl.
  unfold Game_choose.
  unfold bind at 1, get. rewrite Hs.
  unfold bind at 1, deref. rewrite Hl.
  destruct (bool_decide (status s ≠ choosing)); [reflexivity|].
  destruct (user (getSocket socket g)) as [i|]; [|reflexivity].
  unfold bind at 1, derefUser, bind at 1, deref. rewrite Hl.
  destruct (users s !! i) as [u|]; [|reflexivity]. simpl.
  destruct (negb (master u)); [reflexivity|].
  destruct (callSession _ _ _ g) as [[r g'] t]. reflexivity.
Qed.

Lemma chooseBest_run (userId : string) (socket : nat) (g : Game) (l : nat) (s : Session) :
  session (getSocket socket g) = Some l ->
  heap g !! l = Some s ->
  Game_chooseBest userId socket g =
    if bool_decide (status s ≠ choosingbest) then (Throw "you can't choose", g, [])
    else match user (getSocket socket g) with
         | None => (Throw "no user", g, [])
         | Some i =>
             match users s !! i with
             | None => (Stuck, g, [])
             | Some u =>
                 if negb (master u)
                 then (Throw "only master can choose card to show", g, [])
                 else callSession l (chooseBest userId) (Session_chooseBest userId) g
             end
         end.
Proof.
  intros Hs Hl.
  unfold Game_chooseBest.
  unfold bind at 1, get. rewrite Hs.
  unfold bind at 1, deref. rewrite Hl.
  destruct (bool_decide (status s ≠ choosingbest)); [reflexivity|].
  destruct (user (getSocket socket g)) as [i|]; [|reflexivity].
  unfold bind at 1, derefUser, bind at 1, deref. rewrite Hl.
  destruct (users s !! i) as [u|]; [|reflexivity]. simpl.
  destruct (negb (master u)); [reflexivity|].
  destruct (callSession _ _ _ g) as [[r g'] t]. reflexivity.
Qed.

(** C8. A choose (choosebest) command on a connection bound to a session
    is rejected with InvalidPhase unless the status is [choosing]
    ([choosingbest]); in the matching status it is rejected with
    PermissionDenied when the caller is not the master; and
    [session.choose] ([session.chooseBest]) is reached exactly by a master
    caller in the matching status. *)
Theorem choose_guards (userId : string) (socket : nat) (g : Game) (l : nat) (s : Session) :
  session (getSocket socket g) = Some l ->
  heap g !! l = Some s ->
  let r := Game_choose userId socket g in
  let r' := Game_chooseBest userId socket g in
  (status s ≠ choosing -> rejects r g InvalidPhase) /\
  (status s ≠ choosingbest -> rejects r' g InvalidPhase) /\
  (forall u, caller socket g s = Some u -> master u = false ->
     (status s = choosing -> rejects r g PermissionDenied) /\
     (status s = choosingbest -> rejects r' g PermissionDenied)) /\
  (invoked l (choose userId) r <->
     status s = choosing /\ exists u, caller socket g s = Some u /\ master u = true) /\
  (invoked l (chooseBest userId) r' <->
     status s = choosingbest /\ exists u, caller socket g s = Some u /\ master u = true).
Proof.
  intros Hs Hl r r'. subst r r'.
  rewrite (choose_run _ _ _ _ _ Hs Hl), (chooseBest_run _ _ _ _ _ Hs Hl).
  unfold caller.
  split; [|split; [|split; [|split]]].
  - intros Hst. rewrite (bool_decide_eq_true_2 _ Hst). apply rejects_throw. reflexivity.
  - intros Hst. rewrite (bool_decide_eq_true_2 _ Hst). apply rejects_throw. reflexivity.
  - intros u Hu Hm.
    destruct (user (getSocket socket g)) as [i|]; [|discriminate]. simpl in Hu.
    rewrite Hu, Hm. simpl.
    split; intros Hst;
      (rewrite bool_decide_eq_false_2 by (intros H; exact (H Hst)));
      apply rejects_throw; reflexivity.
  - destruct (decide (status s = choosing)) as [Hst | Hst].
    2: { rewrite (bool_decide_eq_true_2 _ Hst). guard_cases. }
    rewrite bool_decide_eq_false_2 by (intros H; exact (H Hst)).
    destruct (user (getSocket socket g)) as [i|]; simpl.
    2: { split; [guard_case | intros (_ & u & Hu & _); discriminate]. }
    destruct (users s !! i) as [u|].
    2: { split; [guard_case | intros (_ & u & Hu & _); discriminate]. }
    destruct (master u) eqn:Hm; simpl.
    + split; [intros _; split; [assumption | exists u; split; [reflexivity | assumption]] |].
      intros _. unfold invoked. rewrite (callSession_run _ _ _ _ _ Hl). apply list_elem_of_here.
    + split; [guard_case | intros (_ & u' & Hu & Hm')]. congruence.
  - destruct (decide (status s = choosingbest)) as [Hst | Hst].
    2: { rewrite (bool_decide_eq_true_2 _ Hst). guard_cases. }
    rewrite bool_decide_eq_false_2 by (intros H; exact (H Hst)).
    destruct (user (getSocket socket g)) as [i|]; simpl.
    2: { split; [guard_case | intros (_ & u & Hu & _); discriminate]. }
    destruct (users s !! i) as [u|].
    2: { split; [guard_case | intros (_ & u & Hu & _); discriminate]. }
    destruct (master u) eqn:Hm; simpl.
    + split; [intros _; split; [assumption | exists u; split; [reflexivity | assumption]] |].
      intros _. unfold invoked. rewrite (callSession_run _ _ _ _ _ Hl). apply list_elem_of_here.
    + split; [guard_case | intros (_ & u' & Hu & Hm')]. congruence.
Qed.


(** ** Lost connections *)

Lemma getSocket_set (k : nat) (sk : Socket) (m : gmap nat Socket) (g : Game) :
  getSocket k (set_sockets (<[k := sk]> m) g) = sk.
Proof. unfold getSocket. simpl. rewrite lookup_insert_eq. reflexivity. Qed.

Lemma Session_disconnectUser_run (i : nat) (s : Session) (u : User) :
  users s !! i = Some u ->
  Session_disconnectUser i s =
    (Ok (forallb disconnected (users (after_disconnect i u s))),
     after_disconnect i u s, []).
Proof.
  intros Hi. unfold Session_disconnectUser, bind, get, modify, ret. simpl.
  rewrite Hi. reflexivity.
Qed.

Lemma onSessionEnd_run (l : nat) (g : Game) (s : Session) :
  heap g !! l = Some s ->
  Game_onSessionEnd l g =
    (Ok tt,
     set_sessions (delete (sid s) (sessions g)) (store l (set_eventBus [] s) g),
     [Call l clearListeners]).
Proof.
  intros Hl. unfold Game_onSessionEnd.
  rewrite (callSession_modify_then _ _ _ _ _ _ Hl).
  unfold bind, deref. rewrite (store_lookup _ _ _ _ Hl). reflexivity.
Qed.

Lemma disconnectUser_run (socket : nat) (g : Game) (l i : nat) (s : Session) (u : User) :
  session (getSocket socket g) = Some l ->
  user (getSocket socket g) = Some i ->
  heap g !! l = Some s ->
  users s !! i = Some u ->
  let s' := after_disconnect i u s in
  let emptied := forallb disconnected (users s') in
  let g1 := if emptied
            then set_sessions (delete (sid s') (sessions g))
                   (store l (set_eventBus [] s') g)
            else store l s' g in
  Game_disconnectUser socket g =
    (Ok tt,
     set_sockets
       (<[socket := mkSocket None None (closeListeners (getSocket socket g))]>
          (sockets g)) g1,
     Call l (disconnectUser i)
       :: (if emptied then [Call l clearListeners] else [])).
Proof.
  intros Hs Hu Hl Hi s' emptied g1.
  unfold Game_disconnectUser.
  unfold bind at 1, get. rewrite Hs, Hu.
  unfold bind at 1. rewrite (callSession_run _ _ _ _ _ Hl).
  rewrite (Session_disconnectUser_run _ _ _ Hi).
  unfold outcome, final, trace. cbn [fst snd]. fold s'. fold emptied.
  assert (Hl' : heap (store l s' g) !! l = Some s') by (eapply store_lookup, Hl).
  subst g1. destruct emptied.
  - unfold bind at 1. rewrite (onSessionEnd_run _ _ _ Hl'). rewrite store_store.
    unfold set_socket_user, set_socket_session, bind, modify. cbn [fst snd].
    rewrite getSocket_set. cbn [session user closeListeners sockets set_sockets].
    rewrite insert_insert_eq. reflexivity.
  - unfold bind at 1, ret.
    unfold set_socket_user, set_socket_session, bind, modify. cbn [fst snd].
    rewrite getSocket_set. cbn [session user closeListeners sockets set_sockets].
    rewrite insert_insert_eq. reflexivity.
Qed.

(** C10. A lostconnection event on a connection that has no bound session
    or no bound user is a silent no-op: nothing is thrown, the game (its
    registry, every session, every connection) is unchanged and nothing
    is called or sent.  When both are bound, [session.disconnectUser] is
    invoked first and the connection ends with neither association. *)
Theorem lostconnection_handling (socket : nat) (g : Game) :
  (session (getSocket socket g) = None \/ user (getSocket socket g) = None ->
     Game_handle (ServerEvent.lostconnection socket) g = (Ok tt, g, [])) /\
  (forall l i s u,
     session (getSocket socket g) = Some l ->
     user (getSocket socket g) = Some i ->
     heap g !! l = Some s ->
     users s !! i = Some u ->
     let r := Game_handle (ServerEvent.lostconnection socket) g in
     outcome r = Ok tt /\
     (exists t, trace r = Call l (disconnectUser i) :: t) /\
     session (getSocket socket (final r)) = None /\
     user (getSocket socket (final r)) = None /\
     exists s', heap (final r) !! l = Some s' /\
                users s' !! i = Some (set_disconnected true u) /\
                getUserSocket s' i = None).
Proof.
  split.
  - intros H. simpl. unfold Game_disconnectUser, bind, get, ret. simpl.
    destruct H as [H | H]; rewrite H; [reflexivity|].
    destruct (session (getSocket socket g)); reflexivity.
  - intros l i s u Hs Hu Hl Hi r. subst r. simpl.
    rewrite (disconnectUser_run _ _ _ _ _ _ Hs Hu Hl Hi).
    unfold outcome, final, trace. cbn [fst snd].
    split; [reflexivity|]. split; [eexists; reflexivity|].
    rewrite getSocket_set. split; [reflexivity|]. split; [reflexivity|].
    assert (Hlt : l < length (heap g)) by (eapply lookup_lt_Some, Hl).
    assert (Hit : i < length (users s)) by (eapply lookup_lt_Some, Hi).
    destruct (forallb disconnected (users (after_disconnect i u s))).
    + exists (set_eventBus [] (after_disconnect i u s)). simpl.
      rewrite list_lookup_insert_eq by assumption.
      split; [reflexivity|]. split.
      * apply list_lookup_insert_eq. assumption.
      * unfold getUserSocket. simpl. apply lookup_delete_eq.
    + exists (after_disconnect i u s). simpl.
      rewrite list_lookup_insert_eq by assumption.
      split; [reflexivity|]. split.
      * apply list_lookup_insert_eq. assumption.
      * unfold getUserSocket. simpl. apply lookup_delete_eq.
Qed.


(** ** Loops *)

Lemma forEach_from_told {St T A} (f : nat -> A -> Eff St T unit)
    (h : nat -> A -> list T) (l : list A) (s : St) :
  (forall i x, f i x s = (Ok tt, s, h i x)) ->
  forall k, forEach_from k f l s = (Ok tt, s, gather_from k h l).
Proof.
  intros Hf. induction l as [|x l IH]; intros k; simpl.
  - reflexivity.
  - unfold bind. rewrite Hf, IH. reflexivity.
Qed.

Lemma forEach_told {St T A} (f : nat -> A -> Eff St T unit)
    (h : nat -> A -> list T) (l : list A) (s : St) :
  (forall i x, f i x s = (Ok tt, s, h i x)) ->
  forEach f l s = (Ok tt, s, gather h l).
Proof. intros Hf. apply forEach_from_told, Hf. Qed.

Lemma gather_from_Forall {A T} (P : T -> Prop) (h : nat -> A -> list T) (l : list A) :
  (forall i x, Forall P (h i x)) -> forall k, Forall P (gather_from k h l).
Proof.
  intros Hh. induction l as [|x l IH]; intros k; simpl.
  - constructor.
  - apply Forall_app. split; [apply Hh | apply IH].
Qed.

(** ** Joining *)

Lemma recipients_gather_from (a : nat -> User -> option nat)
    (p : nat -> User -> Payload) (us : list User) (k : nat) :
  recipients (gather_from k (fun i u => [Sent (UserSend u (a i u) (p i u))]) us) = us.
Proof.
  revert k. induction us as [|u us IH]; intros k; simpl.
  - reflexivity.
  - f_equal. apply IH.
Qed.

Lemma join_messages_recipients (s : Session) (nu : User) :
  recipients (join_messages s nu) = users s.
Proof.
  unfold join_messages, gather.
  apply (recipients_gather_from (fun i _ => getUserSocket s i)
           (fun i u => if bool_decide (uid u = uid nu)
                       then joined (sid s) (status s) (uid nu) (users s)
                                   (getUserWhitecards s i) (redCard s)
                       else userjoined (users s))).
Qed.

Lemma join_messages_no_call (s : Session) (nu : User) (l : nat) (c : SessionCall) :
  Call l c ∉ join_messages s nu.
Proof.
  intros H.
  assert (HF : Forall (fun a => exists m, a = Sent m) (join_messages s nu)).
  { apply gather_from_Forall. intros i x. repeat constructor. eexists; reflexivity. }
  rewrite Forall_forall in HF. destruct (HF _ H) as [m Hm]. discriminate.
Qed.

Lemma join_loop_from_run (l : nat) (g : Game) (s : Session) (nu : User) (us : list User) :
  heap g !! l = Some s ->
  forall k,
    forEach_from k (join_broadcast l nu) us g =
      ((join_loop_from s nu k us).1, g, (join_loop_from s nu k us).2).
Proof.
  intros Hl. induction us as [|u us IH]; intros k; simpl.
  - reflexivity.
  - unfold bind at 1. unfold join_broadcast at 1, bind at 1, deref. rewrite Hl.
    cbv zeta. unfold join_message.
    destruct (getUserSocket s k) as [x|].
    + destruct (bool_decide (uid u = uid nu)); simpl; rewrite IH;
        destruct (join_loop_from s nu (S k) us) as [r t]; reflexivity.
    + destruct (bool_decide (uid u = uid nu)); reflexivity.
Qed.

Lemma join_loop_from_connected (s : Session) (nu : User) (us : list User) (k : nat) :
  (forall i, k <= i < k + length us -> is_Some (getUserSocket s i)) ->
  join_loop_from s nu k us =
    (Ok tt, gather_from k (fun i u => [Sent (join_message s nu i u)]) us).
Proof.
  revert k. induction us as [|u us IH]; intros k Hc; simpl.
  - reflexivity.
  - destruct (Hc k) as [x Hx]; [simpl; lia|]. rewrite Hx.
    rewrite IH; [reflexivity|]. intros i Hi. apply Hc. simpl. lia.
Qed.

Lemma join_loop_from_Ok (s : Session) (nu : User) (us : list User) (k : nat) :
  (join_loop_from s nu k us).1 = Ok tt ->
  forall i, k <= i < k + length us -> is_Some (getUserSocket s i).
Proof.
  revert k. induction us as [|u us IH]; intros k Ho i Hi; simpl in *.
  - lia.
  - destruct (getUserSocket s k) as [x|] eqn:Hx; [|discriminate].
    destruct (decide (i = k)) as [-> | Hne]; [rewrite Hx; eauto|].
    apply (IH (S k)); [|lia].
    destruct (join_loop_from s nu (S k) us) as [r t]. exact Ho.
Qed.

Lemma join_loop_from_outcome (s : Session) (nu : User) (us : list User) (k : nat) :
  (join_loop_from s nu k us).1 = Ok tt \/
  (join_loop_from s nu k us).1 = Throw TypeError_send.
Proof.
  revert k. induction us as [|u us IH]; intros k; simpl.
  - left. reflexivity.
  - destruct (getUserSocket s k); [|right; reflexivity].
    specialize (IH (S k)). destruct (join_loop_from s nu (S k) us) as [r t]. exact IH.
Qed.

Lemma join_loop_from_no_call (s : Session) (nu : User) (us : list User) (k : nat)
    (l : nat) (c : SessionCall) :
  Call l c ∉ (join_loop_from s nu k us).2.
Proof.
  revert k. induction us as [|u us IH]; intros k; simpl.
  - apply not_elem_of_nil.
  - destruct (getUserSocket s k); [|apply not_elem_of_nil].
    specialize (IH (S k)). destruct (join_loop_from s nu (S k) us) as [r t]. simpl in *.
    intros H. apply elem_of_cons in H. destruct H as [H | H]; [discriminate | auto].
Qed.

Lemma join_loop_connected (s : Session) (nu : User) :
  every_user_connected s -> join_loop s nu = (Ok tt, join_messages s nu).
Proof.
  intros Hc. unfold join_loop. rewrite join_loop_from_connected; [reflexivity|].
  intros i Hi. apply Hc. lia.
Qed.

Lemma join_loop_Ok (s : Session) (nu : User) :
  (join_loop s nu).1 = Ok tt <-> every_user_connected s.
Proof.
  split.
  - intros Ho i Hi. apply (join_loop_from_Ok s nu (users s) 0 Ho). lia.
  - intros Hc. rewrite (join_loop_connected s nu Hc). reflexivity.
Qed.

Lemma join_loop_outcome (s : Session) (nu : User) :
  (join_loop s nu).1 = Ok tt \/ (join_loop s nu).1 = Throw TypeError_send.
Proof. apply join_loop_from_outcome. Qed.

Lemma join_loop_throws (s : Session) (nu : User) (i : nat) :
  i < length (users s) ->
  getUserSocket s i = None ->
  (join_loop s nu).1 = Throw TypeError_send.
Proof.
  intros Hi Hn. destruct (join_loop_outcome s nu) as [H | H]; [|exact H].
  apply join_loop_Ok in H. destruct (H i Hi) as [x Hx]. congruence.
Qed.

Lemma join_loop_Ok_trace (s : Session) (nu : User) :
  (join_loop s nu).1 = Ok tt -> (join_loop s nu).2 = join_messages s nu.
Proof.
  intros H. apply join_loop_Ok in H. rewrite (join_loop_connected s nu H). reflexivity.
Qed.

Lemma join_loop_no_call (s : Session) (nu : User) (l : nat) (c : SessionCall) :
  Call l c ∉ (join_loop s nu).2.
Proof. apply join_loop_from_no_call. Qed.

Lemma announced_listeners (socket l i : nat) (r : Res unit) (g : Game) :
  closeListeners (getSocket socket (announced socket l i r g)) =
    match r with
    | Ok _ => S (closeListeners (getSocket socket g))
    | _ => closeListeners (getSocket socket g)
    end.
Proof. unfold announced. cbv zeta. rewrite getSocket_set. reflexivity. Qed.

Lemma join_announce_run (l socket i : nat) (g : Game) (s : Session) (nu : User) :
  heap g !! l = Some s ->
  users s !! i = Some nu ->
  join_announce l socket i g =
    ((join_loop s nu).1, announced socket l i (join_loop s nu).1 g, (join_loop s nu).2).
Proof.
  intros Hl Hi. unfold join_announce.
  unfold bind at 1, set_socket_session at 1, modify at 1.
  unfold bind at 1, set_socket_user at 1, modify at 1.
  rewrite getSocket_set.
  unfold bind at 1, deref at 1. cbn [heap set_sockets]. rewrite Hl.
  unfold bind at 1, derefUser, bind at 1, deref. cbn [heap set_sockets]. rewrite Hl, Hi.
  cbn [ret].
  unfold bind at 1, forEach.
  rewrite (join_loop_from_run l _ s nu (users s)) by (cbn [heap set_sockets]; exact Hl).
  unfold join_loop, announced.
  destruct (join_loop_from s nu 0 (users s)) as [[[]| |] t]; cbn [fst snd].
  - unfold socket_on_close, modify. rewrite getSocket_set.
    cbn [session user closeListeners sockets set_sockets].
    rewrite !insert_insert_eq. simpl. rewrite app_nil_r. reflexivity.
  - cbn [session user closeListeners sockets set_sockets].
    rewrite !insert_insert_eq. reflexivity.
  - cbn [session user closeListeners sockets set_sockets].
    rewrite !insert_insert_eq. reflexivity.
Qed.

Lemma announced_socket (socket l i : nat) (r : Res unit) (g : Game) :
  session (getSocket socket (announced socket l i r g)) = Some l /\
  user (getSocket socket (announced socket l i r g)) = Some i.
Proof. unfold announced. cbv zeta. rewrite getSocket_set. split; reflexivity. Qed.

Lemma announced_heap (socket l i : nat) (r : Res unit) (g : Game) :
  heap (announced socket l i r g) = heap g.
Proof. reflexivity. Qed.


Lemma named_find (name : string) (us : list User) :
  name ∈ username <$> us <->
  exists i u, list_find (fun u => username u = name) us = Some (i, u).
Proof.
  split.
  - intros H. apply list_elem_of_fmap in H. destruct H as (u & Hu & Hin).
    destruct (list_find (fun u => username u = name) us) as [[i v]|] eqn:E.
    + eauto.
    + apply list_find_None in E. rewrite Forall_forall in E.
      exfalso. apply (E u Hin). symmetry. exact Hu.
  - intros (i & u & H). apply list_find_Some in H. destruct H as (Hi & Hn & _).
    apply list_elem_of_fmap. exists u. split; [symmetry; exact Hn|].
    eapply list_elem_of_lookup_2, Hi.
Qed.

Lemma waitingState_true (s : Session) :
  waitingState s = true <-> status s = waiting \/ status s = ended.
Proof.
  unfold waitingState. rewrite orb_true_iff, !bool_decide_eq_true. reflexivity.
Qed.

Lemma waitingState_false (s : Session) :
  waitingState s = false <-> status s ≠ waiting /\ status s ≠ ended.
Proof.
  unfold waitingState. rewrite orb_false_iff, !bool_decide_eq_false. reflexivity.
Qed.

Lemma join_unknown (sessionId : string) (socket : nat) (name : string) (avatar : nat)
    (g : Game) :
  sessions g !! sessionId = None ->
  Game_joinSession sessionId socket name avatar g = (Throw "session not found", g, []).
Proof.
  intros H. unfold Game_joinSession, bind, get. rewrite H. reflexivity.
Qed.

Lemma join_taken (sessionId : string) (socket : nat) (name : string) (avatar : nat)
    (g : Game) (l : nat) (s : Session) :
  sessions g !! sessionId = Some l ->
  heap g !! l = Some s ->
  waitingState s = true ->
  name ∈ username <$> users s ->
  Game_joinSession sessionId socket name avatar g = (Throw "nickname is taken", g, []).
Proof.
  intros Hr Hl Hw Hn. apply named_find in Hn. destruct Hn as (i & u & Hf).
  unfold Game_joinSession. unfold bind at 1, get. rewrite Hr.
  unfold bind at 1, deref. rewrite Hl.
  unfold findIndex. rewrite Hf, Hw. cbn [negb].
  rewrite bool_decide_eq_true_2 by lia.
  reflexivity.
Qed.

Lemma join_started (sessionId : string) (socket : nat) (name : string) (avatar : nat)
    (g : Game) (l : nat) (s : Session) :
  sessions g !! sessionId = Some l ->
  heap g !! l = Some s ->
  waitingState s = false ->
  name ∉ username <$> users s ->
  Game_joinSession sessionId socket name avatar g =
    (Throw "game is started already", g, []).
Proof.
  intros Hr Hl Hw Hn.
  destruct (list_find (fun u => username u = name) (users s)) as [[i u]|] eqn:Hf.
  { exfalso. apply Hn, named_find. eauto. }
  unfold Game_joinSession. unfold bind at 1, get. rewrite Hr.
  unfold bind at 1, deref. rewrite Hl, Hf, Hw. reflexivity.
Qed.

Lemma join_new (sessionId : string) (socket : nat) (name : string) (avatar : nat)
    (g : Game) (l : nat) (s : Session) :
  sessions g !! sessionId = Some l ->
  heap g !! l = Some s ->
  waitingState s = true ->
  name ∉ username <$> users s ->
  let s' := after_add socket name avatar false s in
  let nu := mkUser (newUserId s) name avatar false false false false in
  Game_joinSession sessionId socket name avatar g =
    ((join_loop s' nu).1,
     announced socket l (length (users s)) (join_loop s' nu).1 (store l s' g),
     Call l (addUser socket name avatar false) :: (join_loop s' nu).2).
Proof.
  intros Hr Hl Hw Hn s' nu.
  destruct (list_find (fun u => username u = name) (users s)) as [[i u]|] eqn:Hf.
  { exfalso. apply Hn, named_find. eauto. }
  unfold Game_joinSession. unfold bind at 1, get. rewrite Hr.
  unfold bind at 1, deref. rewrite Hl.
  unfold findIndex. rewrite Hf, Hw. cbn [negb].
  rewrite bool_decide_eq_false_2 by (intros H; apply H; reflexivity).
  unfold bind at 1. rewrite (callSession_run _ _ _ _ _ Hl).
  assert (Ha : Session_addUser socket name avatar false s
               = (Ok (length (users s)), s', [])).
  { unfold Session_addUser, bind, get, modify, ret. cbn [fst snd].
    rewrite Hw, (bool_decide_eq_false_2 _ Hn). reflexivity. }
  rewrite Ha. unfold outcome, final, trace. cbn [fst snd].
  rewrite (join_announce_run l socket (length (users s)) (store l s' g) s' nu).
  - reflexivity.
  - eapply store_lookup, Hl.
  - subst s'. unfold after_add. cbn [users set_users set_userSockets].
    apply list_lookup_middle. reflexivity.
Qed.

Lemma join_reconnect (sessionId : string) (socket : nat) (name : string) (avatar : nat)
    (g : Game) (l : nat) (s : Session) (i : nat) (u : User) :
  sessions g !! sessionId = Some l ->
  heap g !! l = Some s ->
  waitingState s = false ->
  list_find (fun u => username u = name) (users s) = Some (i, u) ->
  let s' := after_reconnect socket i avatar u s in
  let nu := set_avatarId avatar (set_disconnected false u) in
  Game_joinSession sessionId socket name avatar g =
    ((join_loop s' nu).1,
     announced socket l i (join_loop s' nu).1 (store l s' g),
     Call l (reconnectUser socket i avatar) :: (join_loop s' nu).2).
Proof.
  intros Hr Hl Hw Hf s' nu.
  pose proof Hf as Hf'. apply list_find_Some in Hf'. destruct Hf' as (Hi & _ & _).
  unfold Game_joinSession. unfold bind at 1, get. rewrite Hr.
  unfold bind at 1, deref. rewrite Hl, Hf, Hw. cbn [negb].
  unfold bind at 1. unfold bind at 1. rewrite (callSession_run _ _ _ _ _ Hl).
  assert (Ha : Session_reconnectUser socket i avatar s = (Ok tt, s', [])).
  { unfold Session_reconnectUser, bind, get, modify. rewrite Hi. reflexivity. }
  rewrite Ha. unfold outcome, final, trace, ret. cbn [fst snd].
  rewrite (join_announce_run l socket i (store l s' g) s' nu).
  - reflexivity.
  - eapply store_lookup, Hl.
  - subst s'. unfold after_reconnect. cbn [users set_users set_userSockets].
    apply list_lookup_insert_eq. eapply lookup_lt_Some, Hi.
Qed.


(** C4. [joinSession] fails with SessionNotFound for an identifier the
    registry does not hold.  For a session whose status is [waiting] or
    [end], it fails with DuplicateNickname when the username is already
    present, whoever asks; otherwise [session.addUser] is called with
    [isHost = false], a user with [host = false] is appended to the list
    and the connection is bound to it.  The command then succeeds only if
    the session holds a connection for every user: at the first user it
    holds none for, the loop that announces the join throws a [TypeError],
    with the user already appended and no ["close"] listener registered. *)
Theorem join_waiting_session (sessionId : string) (socket : nat) (name : string)
    (avatar : nat) (g : Game) :
  let r := Game_joinSession sessionId socket name avatar g in
  (sessions g !! sessionId = None -> rejects r g SessionNotFound) /\
  (forall l s,
     sessions g !! sessionId = Some l ->
     heap g !! l = Some s ->
     status s = waiting \/ status s = ended ->
     (name ∈ username <$> users s -> rejects r g DuplicateNickname) /\
     (name ∉ username <$> users s ->
        invoked l (addUser socket name avatar false) r /\
        exists s' nu,
          heap (final r) !! l = Some s' /\
          users s' = users s ++ [nu] /\
          username nu = name /\ host nu = false /\
          getUserSocket s' (length (users s)) = Some socket /\
          user (getSocket socket (final r)) = Some (length (users s)) /\
          session (getSocket socket (final r)) = Some l /\
          ((forall i, i < length (users s) -> is_Some (getUserSocket s i)) ->
             outcome r = Ok tt /\
             recipients (trace r) = users s' /\
             closeListeners (getSocket socket (final r)) =
               S (closeListeners (getSocket socket g))) /\
          (forall i, i < length (users s) -> getUserSocket s i = None ->
             outcome r = Throw TypeError_send /\
             closeListeners (getSocket socket (final r)) =
               closeListeners (getSocket socket g)))).
Proof.
  intros r. subst r. split.
  - intros H. rewrite (join_unknown _ _ _ _ _ H). apply rejects_throw. reflexivity.
  - intros l s Hr Hl Hw. apply waitingState_true in Hw. split; intros Hn.
    + rewrite (join_taken _ _ _ _ _ _ _ Hr Hl Hw Hn). apply rejects_throw. reflexivity.
    + rewrite (join_new _ _ _ _ _ _ _ Hr Hl Hw Hn).
      set (s' := after_add socket name avatar false s).
      set (nu := mkUser (newUserId s) name avatar false false false false).
      unfold outcome, final, trace, invoked. cbn [fst snd].
      split; [apply list_elem_of_here|].
      exists s', nu.
      assert (Hk : forall i, i < length (users s) ->
                getUserSocket s' i = getUserSocket s i).
      { intros i Hi. unfold getUserSocket, s', after_add. simpl.
        apply lookup_insert_ne. lia. }
      assert (Hlen : length (users s') = S (length (users s))).
      { unfold s', after_add. simpl. rewrite length_app. simpl. lia. }
      split; [rewrite announced_heap; eapply store_lookup, Hl|].
      split; [reflexivity|]. split; [reflexivity|]. split; [reflexivity|].
      split; [unfold getUserSocket, s', after_add; simpl; apply lookup_insert_eq|].
      destruct (announced_socket socket l (length (users s)) (join_loop s' nu).1
                  (store l s' g)) as (Hb1 & Hb2).
      split; [exact Hb2|]. split; [exact Hb1|].
      rewrite announced_listeners. split.
      * intros Hc.
        assert (Hc' : every_user_connected s').
        { intros i Hi. destruct (decide (i = length (users s))) as [-> | Hne].
          - unfold getUserSocket, s', after_add. simpl. rewrite lookup_insert_eq. eauto.
          - rewrite Hk by lia. apply Hc. lia. }
        rewrite (join_loop_connected s' nu Hc'). cbn [fst snd].
        split; [reflexivity|]. split; [|reflexivity].
        apply (join_messages_recipients s' nu).
      * intros i Hi Hnone.
        rewrite (join_loop_throws s' nu i); [split; reflexivity | lia |].
        rewrite Hk by exact Hi. exact Hnone.
Qed.

(** C5. A join whose username matches an existing user of a session whose
    status is neither [waiting] nor [end] reconnects that user: the
    connection is bound to the same user object, which keeps its id, name,
    roles, vote state and hand, and the list of users does not grow.  All
    of this is done before the join is announced; the announcement returns
    when the session holds a connection for every user, and throws a
    [TypeError] at the first user it holds none for. *)
Theorem join_reconnects_existing_user (sessionId : string) (socket : nat)
    (name : string) (avatar : nat) (g : Game) (l : nat) (s : Session) :
  sessions g !! sessionId = Some l ->
  heap g !! l = Some s ->
  status s ≠ waiting ->
  status s ≠ ended ->
  name ∈ username <$> users s ->
  let r := Game_joinSession sessionId socket name avatar g in
  exists i u s' u',
    users s !! i = Some u /\ username u = name /\
    invoked l (reconnectUser socket i avatar) r /\
    (forall l' k n a h, ~ invoked l' (addUser k n a h) r) /\
    session (getSocket socket (final r)) = Some l /\
    user (getSocket socket (final r)) = Some i /\
    heap (final r) !! l = Some s' /\
    length (users s') = length (users s) /\
    (forall j, j ≠ i -> users s' !! j = users s !! j) /\
    users s' !! i = Some u' /\
    uid u' = uid u /\ username u' = username u /\ host u' = host u /\
    master u' = master u /\ voted u' = voted u /\
    disconnected u' = false /\
    getUserSocket s' i = Some socket /\
    getUserWhitecards s' i = getUserWhitecards s i /\
    votes s' = votes s /\
    (every_user_connected s' -> outcome r = Ok tt) /\
    (forall j, j < length (users s') -> getUserSocket s' j = None ->
       outcome r = Throw TypeError_send).
Proof.
  intros Hr Hl Hw1 Hw2 Hn r. subst r.
  assert (Hw : waitingState s = false) by (apply waitingState_false; split; assumption).
  apply named_find in Hn. destruct Hn as (i & u & Hf).
  pose proof Hf as Hf'. apply list_find_Some in Hf'. destruct Hf' as (Hi & Hu & _).
  exists i, u, (after_reconnect socket i avatar u s),
         (set_avatarId avatar (set_disconnected false u)).
  rewrite (join_reconnect _ _ _ _ _ _ _ _ _ Hr Hl Hw Hf).
  set (s' := after_reconnect socket i avatar u s).
  set (nu := set_avatarId avatar (set_disconnected false u)).
  unfold outcome, final, trace, invoked. cbn [fst snd].
  assert (Hlt : i < length (users s)) by (eapply lookup_lt_Some, Hi).
  split; [exact Hi|]. split; [exact Hu|].
  split; [apply list_elem_of_here|].
  split.
  { intros l' k n a h H. apply elem_of_cons in H. destruct H as [H | H].
    - discriminate.
    - eapply join_loop_no_call, H. }
  destruct (announced_socket socket l i (join_loop s' nu).1 (store l s' g)) as (Hb1 & Hb2).
  split; [exact Hb1|]. split; [exact Hb2|].
  split; [rewrite announced_heap; eapply store_lookup, Hl|].
  unfold s', after_reconnect. cbn [users set_users set_userSockets].
  split; [apply length_insert|].
  split; [intros j Hj; apply list_lookup_insert_ne; congruence|].
  split; [apply list_lookup_insert_eq; exact Hlt|].
  repeat (split; [reflexivity|]).
  split; [unfold getUserSocket; simpl; apply lookup_insert_eq|].
  split; [reflexivity|]. split; [reflexivity|].
  fold (after_reconnect socket i avatar u s). fold s'. split.
  - intros Hc. rewrite (join_loop_connected s' nu Hc). reflexivity.
  - intros j Hj Hnone. apply (join_loop_throws s' nu j); [exact Hj | exact Hnone].
Qed.


(** ** Phase broadcasts *)

Lemma broadcast_run (p : Session -> nat -> Payload) (s : Session) :
  (s0 <- get ;;
   forEach (fun i u =>
     if disconnected u then ret tt
     else s <- get ;; tell (UserSend u (getUserSocket s i) (p s i)))
     (users s0)) s
  = (Ok tt, s, to_connected s (p s)).
Proof.
  unfold bind at 1, get.
  rewrite (forEach_told _ (fun i u => if disconnected u then []
                                      else [UserSend u (getUserSocket s i) (p s i)])).
  - reflexivity.
  - intros i u. destruct (disconnected u); reflexivity.
Qed.

Lemma starting_listener_run (s : Session) :
  starting_listener s = (Ok tt, s, to_connected s (fun _ => gamestart (status s))).
Proof. apply (broadcast_run (fun s _ => gamestart (status s))). Qed.

Lemma choosing_listener_run (s : Session) :
  choosing_listener s =
    (Ok tt, s,
     to_connected s (fun i => choosingstarted (status s) (votes s) (getUserWhitecards s i))).
Proof.
  apply (broadcast_run
           (fun s i => choosingstarted (status s) (votes s) (getUserWhitecards s i))).
Qed.

Lemma choosingbest_listener_run (s : Session) :
  choosingbest_listener s =
    (Ok tt, s, to_connected s (fun _ => choosingbeststarted (status s))).
Proof. apply (broadcast_run (fun s _ => choosingbeststarted (status s))). Qed.

Lemma voting_listener_run (s : Session) :
  voting_listener s =
    if truthy (redCard s) then
      (Ok tt, s,
       to_connected s (fun i => votingstarted (getUserWhitecards s i) (redCard s)
                                  (users s) (status s) (votes s)))
    else
      (if forallb disconnected (users s) then Ok tt else Throw "no red card", s, []).
Proof.
  unfold voting_listener. unfold bind at 1, get.
  destruct (truthy (redCard s)) eqn:Hr.
  - rewrite (forEach_told _ (fun i u =>
      if disconnected u then []
      else [UserSend u (getUserSocket s i)
              (votingstarted (getUserWhitecards s i) (redCard s) (users s)
                 (status s) (votes s))])).
    + reflexivity.
    + intros i u. destruct (disconnected u); [reflexivity|].
      unfold bind, get. rewrite Hr. reflexivity.
  - unfold forEach. generalize 0.
    induction (users s) as [|u us IH]; intros k; simpl.
    + reflexivity.
    + unfold bind at 1. destruct (disconnected u); simpl.
      * rewrite IH. destruct (forallb disconnected us); reflexivity.
      * unfold bind, get. rewrite Hr. reflexivity.
Qed.

Lemma voting_listener_final (s : Session) : final (voting_listener s) = s.
Proof. rewrite voting_listener_run. destruct (truthy (redCard s)); reflexivity. Qed.

Lemma to_connected_recipients (s : Session) (p : nat -> Payload) :
  omap recipient (to_connected s p) = filter (fun u => disconnected u = false) (users s).
Proof.
  unfold to_connected, gather. generalize 0.
  induction (users s) as [|u us IH]; intros k; simpl.
  - reflexivity.
  - rewrite filter_cons. destruct (disconnected u) eqn:Hd; simpl.
    + apply IH.
    + f_equal. apply IH.
Qed.

Lemma emit_one (name : string) (l : Listener) (s : Session) :
  EventBus_handlers name (eventBus s) = [l] ->
  Session_emit name s = runListener l s.
Proof.
  intros H. unfold Session_emit. unfold bind at 1, get. rewrite H.
  unfold forEach. simpl. unfold bind, ret.
  destruct (runListener l s) as [[[[]| |] s'] t]; rewrite ?app_nil_r; reflexivity.
Qed.

Lemma emit_phase (s : Session) :
  eventBus s = phase_listeners ->
  Session_emit "starting" s = starting_listener s /\
  Session_emit "voting" s = voting_listener s /\
  Session_emit "choosing" s = choosing_listener s /\
  Session_emit "choosingbest" s = choosingbest_listener s.
Proof.
  intros H. repeat split.
  - apply (emit_one _ onStarting). rewrite H. reflexivity.
  - apply (emit_one _ onVoting). rewrite H. reflexivity.
  - apply (emit_one _ onChoosing). rewrite H. reflexivity.
  - apply (emit_one _ onChoosingBest). rewrite H. reflexivity.
Qed.

Lemma Session_startGame_run (s : Session) :
  eventBus s = phase_listeners ->
  let s2 := set_status starting s in
  let s4 := set_status voting (roundSetup s2) in
  Session_startGame s =
    (outcome (voting_listener s4), s4,
     to_connected s2 (fun _ => gamestart starting) ++ trace (voting_listener s4)).
Proof.
  intros H s2 s4. unfold Session_startGame.
  unfold bind at 1, modify at 1. fold s2.
  assert (H2 : eventBus s2 = phase_listeners) by exact H.
  assert (H4 : eventBus s4 = phase_listeners) by exact H.
  destruct (emit_phase s2 H2) as (E2 & _). destruct (emit_phase s4 H4) as (_ & E4 & _).
  unfold bind at 1. rewrite E2, starting_listener_run.
  unfold bind at 1, modify at 1. unfold bind at 1, modify at 1. fold s4.
  rewrite E4. pose proof (voting_listener_final s4) as Hf.
  destruct (voting_listener s4) as [[r s'] t]. unfold final in Hf. simpl in Hf. subst s'.
  reflexivity.
Qed.


Lemma calls_sent (t : list Send) : calls (Sent <$> t) = [].
Proof. induction t as [|m t IH]; [reflexivity | exact IH]. Qed.

Lemma sends_sent (t : list Send) : sends (Sent <$> t) = t.
Proof. induction t as [|m t IH]; [reflexivity | simpl; f_equal; exact IH]. Qed.

Lemma startGame_accepted (socket : nat) (g : Game) (l i : nat) (s : Session) (u : User) :
  session (getSocket socket g) = Some l ->
  user (getSocket socket g) = Some i ->
  heap g !! l = Some s ->
  users s !! i = Some u ->
  host u = true ->
  status s = waiting \/ status s = ended ->
  let s1 := set_eventBus phase_listeners s in
  Game_startGame socket g =
    (outcome (Session_startGame s1),
     store l (final (Session_startGame s1)) g,
     [Call l clearListeners; Call l (on "starting" onStarting);
      Call l (on "voting" onVoting); Call l (on "choosing" onChoosing);
      Call l (on "choosingbest" onChoosingBest); Call l startGame]
     ++ (Sent <$> trace (Session_startGame s1))).
Proof.
  intros Hs Hu Hl Hi Hh Hw s1.
  rewrite (startGame_run _ _ _ _ _ _ Hs Hu Hl Hi), Hh. cbn [negb].
  destruct Hw as [Hw | Hw]; rewrite Hw; reflexivity.
Qed.



Lemma startGame_outcomes (socket : nat) (g : Game) :
  outcome (Game_startGame socket g) ∈
    [Ok tt; Stuck; Throw "no session"; Throw "no user"; Throw "you are not a host";
     Throw "game is started already"; Throw "no red card"].
Proof.
  destruct (session (getSocket socket g)) as [l|] eqn:Hs.
  2: { unfold Game_startGame, bind, get. rewrite Hs. simpl. set_solver. }
  destruct (user (getSocket socket g)) as [i|] eqn:Hu.
  2: { unfold Game_startGame, bind, get. rewrite Hs, Hu. simpl. set_solver. }
  destruct (heap g !! l) as [s|] eqn:Hl.
  2: { unfold Game_startGame. unfold bind at 1, get. rewrite Hs, Hu.
       unfold bind at 1, derefUser, bind at 1, deref. rewrite Hl. simpl. set_solver. }
  destruct (users s !! i) as [u|] eqn:Hi.
  2: { unfold Game_startGame. unfold bind at 1, get. rewrite Hs, Hu.
       unfold bind at 1, derefUser, bind at 1, deref. rewrite Hl, Hi. simpl. set_solver. }
  rewrite (startGame_run _ _ _ _ _ _ Hs Hu Hl Hi).
  destruct (negb (host u)); [simpl; set_solver|].
  destruct (_ && _); [simpl; set_solver|].
  cbv zeta. unfold outcome at 1. cbn [fst].
  rewrite (Session_startGame_run (set_eventBus phase_listeners s) eq_refl).
  unfold outcome at 1. cbn [fst]. rewrite voting_listener_run.
  destruct (truthy _); [simpl; set_solver|].
  destruct (forallb _ _); simpl; set_solver.
Qed.



(** ** Who is sent what *)

(** Every phase listener skips the disconnected users: what it sends goes
    to connected users only, in the order of the list. *)
Lemma phase_broadcast_skips_disconnected (l : Listener) (s : Session) :
  Forall (fun m => exists u, recipient m = Some u /\ disconnected u = false)
         (trace (runListener l s)) /\
  (omap recipient (trace (runListener l s))
     = filter (fun u => disconnected u = false) (users s)
   \/ trace (runListener l s) = []).
Proof.
  assert (G : forall p,
    Forall (fun m => exists u, recipient m = Some u /\ disconnected u = false)
           (to_connected s p)).
  { intros p. apply gather_from_Forall. intros i u.
    destruct (disconnected u) eqn:Hd; constructor; [|constructor].
    exists u. split; [reflexivity | exact Hd]. }
  destruct l; simpl.
  - rewrite starting_listener_run. split; [apply G | left; apply to_connected_recipients].
  - rewrite voting_listener_run. destruct (truthy (redCard s)).
    + split; [apply G | left; apply to_connected_recipients].
    + split; [constructor | right; reflexivity].
  - rewrite choosing_listener_run. split; [apply G | left; apply to_connected_recipients].
  - rewrite choosingbest_listener_run.
    split; [apply G | left; apply to_connected_recipients].
Qed.

(** The loop of [Game.joinSession] has no such test: a join that returns
    has sent to every user of the list, in order. *)
Lemma join_broadcast_visits_every_user (sessionId : string) (socket : nat)
    (name : string) (avatar : nat) (g : Game) (l : nat) (s : Session) :
  sessions g !! sessionId = Some l ->
  heap g !! l = Some s ->
  let r := Game_joinSession sessionId socket name avatar g in
  outcome r = Ok tt ->
  exists s', heap (final r) !! l = Some s' /\ recipients (trace r) = users s'.
Proof.
  intros Hr Hl r. subst r.
  destruct (waitingState s) eqn:Hw;
    destruct (decide (name ∈ username <$> users s)) as [Hn | Hn].
  - rewrite (join_taken _ _ _ _ _ _ _ Hr Hl Hw Hn). discriminate.
  - rewrite (join_new _ _ _ _ _ _ _ Hr Hl Hw Hn).
    unfold outcome, final, trace. cbn [fst snd]. intros Ho.
    eexists. split; [rewrite announced_heap; eapply store_lookup, Hl|].
    rewrite (join_loop_Ok_trace _ _ Ho). apply join_messages_recipients.
  - apply named_find in Hn. destruct Hn as (i & u & Hf).
    rewrite (join_reconnect _ _ _ _ _ _ _ _ _ Hr Hl Hw Hf).
    unfold outcome, final, trace. cbn [fst snd]. intros Ho.
    eexists. split; [rewrite announced_heap; eapply store_lookup, Hl|].
    rewrite (join_loop_Ok_trace _ _ Ho). apply join_messages_recipients.
  - rewrite (join_started _ _ _ _ _ _ _ Hr Hl Hw Hn). discriminate.
Qed.

End Properties.

(** ** The sample runs, evaluated *)

Section Samples.
Import Run.

Example lobby_state :
  sessions g_lobby !! "room0" = Some 0 /\
  status (room g_lobby) = waiting /\
  users (room g_lobby) = [alice; bob; carol] /\
  getSocket 2 g_lobby = mkSocket (Some 0) (Some 1) 1.
Proof. vm_compute. repeat split. Qed.

Example voting_state :
  status (room g_voting) = voting /\
  users (room g_voting) = [set_master true alice; bob; carol] /\
  redCard (room g_voting) = Some "red" /\
  getUserWhitecards (room g_voting) 1 = ["w1a"; "w1b"] /\
  eventBus (room g_voting) = phase_listeners.
Proof. vm_compute. repeat split. Qed.

Example choosing_state :
  status (room g_choosing) = choosing /\
  votes (room g_choosing) = [("u1", "w1a"); ("u2", "w2a")] /\
  status (room g_best) = choosingbest.
Proof. vm_compute. repeat split. Qed.

Example dropped_state :
  sessions g_dropped !! "room0" = Some 0 /\
  status (room g_dropped) = voting /\
  users (room g_dropped) =
    [set_disconnected true (set_master true alice); set_disconnected true bob; carol] /\
  getUserSocket (room g_dropped) 0 = None /\
  getUserSocket (room g_dropped) 1 = None /\
  getUserSocket (room g_dropped) 2 = Some 3.
Proof. vm_compute. repeat split. Qed.

End Samples.

(** ** The theorems at the sample runs *)

(** Goals about a sample run are settled by evaluation. *)
Ltac run :=
  vm_compute;
  first [ reflexivity | discriminate | left; reflexivity | right; reflexivity ].

Lemma vote_guards_witness :
  invoked 0 (vote 1 "w1a") (Game_vote (collab := sample) 2 "w1a" Run.g_voting) /\
  rejects (Game_vote (collab := sample) 1 "w0a" Run.g_voting) Run.g_voting PermissionDenied.
Proof.
  split.
  - destruct (vote_guards (collab := sample) 2 "w1a" Run.g_voting 0 1
                (Run.room Run.g_voting) Run.bob)
      as (_ & _ & _ & _ & _ & H); [run ..|].
    apply H. split; [run|]. split; [run|].
    split; [|run]. vm_compute. apply list_elem_of_here.
  - destruct (vote_guards (collab := sample) 1 "w0a" Run.g_voting 0 0
                (Run.room Run.g_voting) (set_master true Run.alice))
      as (H & _); [run ..|].
    apply H. run.
Defined.

Lemma startgame_guards_witness :
  invoked 0 startGame (Game_startGame (collab := sample) 1 Run.g_lobby) /\
  rejects (Game_startGame (collab := sample) 2 Run.g_lobby) Run.g_lobby PermissionDenied /\
  rejects (Game_startGame (collab := sample) 1 Run.g_voting) Run.g_voting InvalidPhase.
Proof.
  split; [|split].
  - destruct (startgame_guards (collab := sample) 1 Run.g_lobby 0 0
                (Run.room Run.g_lobby) Run.alice)
      as (_ & _ & H & _); [run ..|].
    apply H; [run | run].
  - destruct (startgame_guards (collab := sample) 2 Run.g_lobby 0 1
                (Run.room Run.g_lobby) Run.bob)
      as (H & _); [run ..|].
    apply H. run.
  - destruct (startgame_guards (collab := sample) 1 Run.g_voting 0 0
                (Run.room Run.g_voting) (set_master true Run.alice))
      as (_ & H & _); [run ..|].
    apply H; [run | run | run].
Defined.

Lemma choose_guards_witness :
  invoked 0 (choose "u1") (Game_choose (collab := sample) "u1" 1 Run.g_choosing) /\
  rejects (Game_chooseBest (collab := sample) "u1" 1 Run.g_choosing) Run.g_choosing
    InvalidPhase /\
  rejects (Game_choose (collab := sample) "u1" 2 Run.g_choosing) Run.g_choosing
    PermissionDenied.
Proof.
  split; [|split].
  - destruct (choose_guards (collab := sample) "u1" 1 Run.g_choosing 0
                (Run.room Run.g_choosing))
      as (_ & _ & _ & H & _); [run ..|].
    apply H. split; [run|].
    exists (set_master true Run.alice). split; reflexivity.
  - destruct (choose_guards (collab := sample) "u1" 1 Run.g_choosing 0
                (Run.room Run.g_choosing))
      as (_ & H & _); [run ..|].
    apply H. run.
  - destruct (choose_guards (collab := sample) "u1" 2 Run.g_choosing 0
                (Run.room Run.g_choosing))
      as (_ & _ & H & _); [run ..|].
    destruct (H (set_voted true Run.bob)) as (H1 & _); [run | run |].
    apply H1. run.
Defined.

Lemma lostconnection_handling_witness :
  Game_handle (collab := sample) (ServerEvent.lostconnection 9) Run.g_lobby
    = (Ok tt, Run.g_lobby, []) /\
  user (getSocket 2
          (final (Game_handle (collab := sample) (ServerEvent.lostconnection 2)
                    Run.g_lobby))) = None.
Proof.
  split.
  - apply (lostconnection_handling (collab := sample) 9 Run.g_lobby).
    left. run.
  - destruct (lostconnection_handling (collab := sample) 2 Run.g_lobby) as (_ & H).
    destruct (H 0 1 (Run.room Run.g_lobby) Run.bob) as (_ & _ & _ & Hu & _);
      [run ..|].
    exact Hu.
Defined.

Lemma join_waiting_session_witness :
  rejects (Game_joinSession (collab := sample) "room7" 4 "dave" 3 Run.g_lobby)
    Run.g_lobby SessionNotFound /\
  rejects (Game_joinSession (collab := sample) "room0" 4 "bob" 3 Run.g_lobby)
    Run.g_lobby DuplicateNickname /\
  outcome (Game_joinSession (collab := sample) "room0" 4 "dave" 3 Run.g_lobby) = Ok tt /\
  (outcome (Game_joinSession (collab := sample) "room0" 4 "dave" 3 Run.g_host_away)
     = Throw TypeError_send /\
   closeListeners
     (getSocket 4 (final (Game_joinSession (collab := sample) "room0" 4 "dave" 3
                            Run.g_host_away)))
     = closeListeners (getSocket 4 Run.g_host_away)).
Proof.
  assert (Hd : forall us : list User,
            Forall (fun v => username v ≠ "dave") us -> "dave" ∉ username <$> us).
  { intros us Hus Hin. apply list_elem_of_fmap in Hin. destruct Hin as (v & Hv & Hin).
    rewrite Forall_forall in Hus. apply (Hus v Hin). symmetry. exact Hv. }
  split; [|split; [|split]].
  - apply (join_waiting_session (collab := sample) "room7" 4 "dave" 3 Run.g_lobby).
    vm_compute. run.
  - destruct (join_waiting_session (collab := sample) "room0" 4 "bob" 3 Run.g_lobby)
      as (_ & H).
    destruct (H 0 (Run.room Run.g_lobby)) as (H1 & _);
      [run | run | run |].
    apply H1. vm_compute. apply list_elem_of_further, list_elem_of_here.
  - destruct (join_waiting_session (collab := sample) "room0" 4 "dave" 3 Run.g_lobby)
      as (_ & H).
    destruct (H 0 (Run.room Run.g_lobby)) as (_ & H2);
      [run | run | run |].
    destruct H2 as (_ & s' & nu & _ & _ & _ & _ & _ & _ & _ & H3 & _).
    { apply Hd. vm_compute. repeat constructor; discriminate. }
    apply H3. intros i Hi.
    assert (E : length (users (Run.room Run.g_lobby)) = 3) by (vm_compute; reflexivity).
    rewrite E in Hi.
    destruct i as [|[|[|i]]]; [vm_compute; eexists; reflexivity ..| lia].
  - destruct (join_waiting_session (collab := sample) "room0" 4 "dave" 3 Run.g_host_away)
      as (_ & H).
    destruct (H 0 (Run.room Run.g_host_away)) as (_ & H2);
      [run | run | run |].
    destruct H2 as (_ & s' & nu & _ & _ & _ & _ & _ & _ & _ & _ & H3).
    { apply Hd. vm_compute. repeat constructor; discriminate. }
    apply (H3 0); [vm_compute; lia | run].
Defined.

Lemma join_reconnects_existing_user_witness :
  (exists i u s' u',
     users (Run.room Run.g_dropped) !! i = Some u /\ username u = "bob" /\
     heap (final (Game_joinSession (collab := sample) "room0" 4 "bob" 5 Run.g_dropped))
       !! 0 = Some s' /\
     length (users s') = 3 /\
     users s' !! i = Some u' /\ uid u' = uid u /\
     getUserSocket s' 0 = None /\
     outcome (Game_joinSession (collab := sample) "room0" 4 "bob" 5 Run.g_dropped)
       = Throw TypeError_send) /\
  outcome (Game_joinSession (collab := sample) "room0" 4 "bob" 5 Run.g_bob_away) = Ok tt.
Proof.
  split.
  - destruct (join_reconnects_existing_user (collab := sample) "room0" 4 "bob" 5
                Run.g_dropped 0 (Run.room Run.g_dropped))
      as (i & u & s' & u' & H1 & H2 & _ & _ & _ & _ & H3 & H4 & _ & H5 & H6 & R).
    + vm_compute. run.
    + vm_compute. run.
    + run.
    + run.
    + vm_compute. apply list_elem_of_further, list_elem_of_here.
    + destruct R as (_ & _ & _ & _ & _ & _ & _ & _ & _ & HT).
      assert (E : heap (final (Game_joinSession (collab := sample) "room0" 4 "bob" 5
                                 Run.g_dropped)) !! 0
                  = Some (Run.room (final (Game_joinSession (collab := sample)
                                             "room0" 4 "bob" 5 Run.g_dropped))))
        by (vm_compute; reflexivity).
      rewrite E in H3. injection H3 as H3.
      assert (N : getUserSocket s' 0 = None) by (rewrite <- H3; vm_compute; reflexivity).
      assert (L : length (users (Run.room Run.g_dropped)) = 3) by (vm_compute; reflexivity).
      rewrite L in H4.
      exists i, u, s', u'.
      split; [exact H1|]. split; [exact H2|]. split; [rewrite E, H3; reflexivity|].
      split; [exact H4|]. split; [exact H5|]. split; [exact H6|].
      split; [exact N|].
      apply (HT 0); [rewrite H4; lia | exact N].
  - destruct (join_reconnects_existing_user (collab := sample) "room0" 4 "bob" 5
                Run.g_bob_away 0 (Run.room Run.g_bob_away))
      as (i & u & s' & u' & _ & _ & _ & _ & _ & _ & H3 & H4 & R).
    + vm_compute. run.
    + vm_compute. run.
    + run.
    + run.
    + vm_compute. apply list_elem_of_further, list_elem_of_here.
    + destruct R as (_ & _ & _ & _ & _ & _ & _ & _ & _ & _ & _ & HO & _).
      apply HO. intros j Hj. rewrite H4 in Hj.
      assert (E : heap (final (Game_joinSession (collab := sample) "room0" 4 "bob" 5
                                 Run.g_bob_away)) !! 0
                  = Some (Run.room (final (Game_joinSession (collab := sample)
                                             "room0" 4 "bob" 5 Run.g_bob_away))))
        by (vm_compute; reflexivity).
      rewrite E in H3. injection H3 as H3. rewrite <- H3.
      assert (L : length (users (Run.room Run.g_bob_away)) = 3) by (vm_compute; reflexivity).
      rewrite L in Hj.
      destruct j as [|[|[|j]]]; [vm_compute; eexists; reflexivity ..| lia].
Defined.




(** ** Where the specification and the code part *)



(** C3 at a failing input.  In the sample game alice and bob have lost
    their connections during the vote.  When bob returns, the loop of
    [Game.joinSession] does not skip alice, who is disconnected and has no
    connection: it reads [send] through her missing connection and the
    command ends in a [TypeError], after bob has been reconnected and
    before anyone is told; no ["close"] listener is registered.  The
    [voting] listener, run on the session the join leaves, skips alice
    and reaches bob and carol.  With carol the one who is away, the loop
    tells alice and bob, in the order of the list, and throws at carol. *)
Theorem join_broadcast_reaches_disconnected_user :
  let alice_gone := set_disconnected true (set_master true Run.alice) in
  let bob_back := set_avatarId 5 Run.bob in
  let r := Game_joinSession (collab := sample) "room0" 4 "bob" 5 Run.g_dropped in
  let r' := Game_joinSession (collab := sample) "room0" 4 "bob" 5 Run.g_carol_away in
  (users (Run.room Run.g_dropped) = [alice_gone; set_disconnected true Run.bob; Run.carol] /\
   disconnected alice_gone = true /\
   getUserSocket (Run.room Run.g_dropped) 0 = None /\
   outcome r = Throw TypeError_send /\
   trace r = [Call 0 (reconnectUser 4 1 5)] /\
   users (Run.room (final r)) = [alice_gone; bob_back; Run.carol] /\
   getUserSocket (Run.room (final r)) 1 = Some 4 /\
   getUserSocket (Run.room (final r)) 2 = Some 3 /\
   closeListeners (getSocket 4 (final r)) = 0 /\
   omap recipient (trace (runListener onVoting (Run.room (final r))))
     = [bob_back; Run.carol]) /\
  (users (Run.room (final r'))
     = [set_master true Run.alice; bob_back; set_disconnected true Run.carol] /\
   outcome r' = Throw TypeError_send /\
   recipients (trace r') = [set_master true Run.alice; bob_back]).
Proof.
  vm_compute. repeat split.
Qed.

(** * Further properties of [logic.ts] *)

Section More.
Context {collab : Collaborators}.

(** ** Creating a session *)

Lemma createSession_run (socket : nat) (name : string) (avatar : nat) (g : Game) :
  let l := length (heap g) in
  let id := newSessionId g in
  let s1 := after_add socket name avatar true (Session_new id) in
  let u := mkUser (newUserId (Session_new id)) name avatar true false false false in
  Game_createSession socket name avatar g =
    (Ok tt,
     set_sockets (<[socket := bound_socket socket l 0 g]> (sockets g))
       (set_sessions (<[id := l]> (sessions g))
          (set_heap (heap g ++ [s1]) g)),
     [Call l (addUser socket name avatar true);
      Sent (SocketSend socket (created id waiting [u] (uid u)))]).
Proof.
  intros l id s1 u.
  set (g1 := set_heap (heap g ++ [Session_new id]) g).
  assert (Hl : heap g1 !! l = Some (Session_new id)).
  { subst g1 l. simpl. apply list_lookup_middle. reflexivity. }
  assert (Hs : store l s1 g1 = set_heap (heap g ++ [s1]) g).
  { subst g1 l. unfold store, set_heap. simpl. f_equal.
    rewrite insert_app_r_alt by lia. rewrite Nat.sub_diag. reflexivity. }
  assert (Hl1 : heap (store l s1 g1) !! l = Some s1) by (eapply store_lookup, Hl).
  unfold Game_createSession.
  unfold bind at 1, get. unfold bind at 1, modify at 1. fold id. fold g1. fold l.
  unfold bind at 1. rewrite (callSession_run _ _ _ _ _ Hl).
  assert (Ha : Session_addUser socket name avatar true (Session_new id) = (Ok 0, s1, [])).
  { reflexivity. }
  rewrite Ha. unfold outcome, final, trace. cbn [fst snd].
  unfold bind at 1, deref at 1. rewrite Hl1.
  unfold bind at 1, modify at 1.
  unfold bind at 1, set_socket_session at 1, modify at 1.
  unfold bind at 1, set_socket_user at 1, modify at 1.
  rewrite getSocket_set.
  unfold bind at 1, deref at 1. cbn [heap set_sockets set_sessions]. rewrite Hl1.
  unfold bind at 1, derefUser, bind at 1, deref.
  cbn [heap set_sockets set_sessions]. rewrite Hl1.
  assert (Hu0 : users s1 !! 0 = Some u) by reflexivity. rewrite Hu0.
  unfold bind, tell, socket_on_close, modify, ret. cbn [fst snd].
  rewrite getSocket_set.
  cbn [session user closeListeners sockets set_sockets set_sessions users].
  rewrite !insert_insert_eq. rewrite Hs. simpl. reflexivity.
Qed.

(** X1. A createsession command never fails.  It makes a session in [waiting]
    whose only user is the creator, with [host = true]; registers it under
    its identifier, replacing whatever the registry held there; binds the
    connection to it; and sends one [created] message, to the creator. *)
Theorem createSession_registers (socket : nat) (name : string) (avatar : nat) (g : Game) :
  let r := Game_createSession socket name avatar g in
  let l := length (heap g) in
  let id := newSessionId g in
  outcome r = Ok tt /\
  sessions (final r) = <[id := l]> (sessions g) /\
  (exists s1 u,
     heap (final r) = heap g ++ [s1] /\
     sid s1 = id /\ status s1 = waiting /\ users s1 = [u] /\ eventBus s1 = [] /\
     username u = name /\ host u = true /\ master u = false /\
     disconnected u = false /\ getUserSocket s1 0 = Some socket /\
     trace r = [Call l (addUser socket name avatar true);
                Sent (SocketSend socket (created id waiting [u] (uid u)))]) /\
  session (getSocket socket (final r)) = Some l /\
  user (getSocket socket (final r)) = Some 0 /\
  closeListeners (getSocket socket (final r)) = S (closeListeners (getSocket socket g)).
Proof.
  intros r l id. subst r. rewrite createSession_run.
  unfold outcome, final, trace. cbn [fst snd].
  split; [reflexivity|]. split; [reflexivity|]. split.
  - eexists _, _. repeat (split; [reflexivity|]). reflexivity.
  - rewrite getSocket_set. repeat split.
Qed.

(** X2. A session that has just been created is found by a join with its
    identifier: a different username is appended as a second user who is
    not the host, the creator's username is refused as a duplicate. *)
Theorem create_then_join (a b : nat) (name name' : string) (avatar avatar' : nat)
    (g : Game) :
  let g1 := final (Game_createSession a name avatar g) in
  let r := Game_joinSession (newSessionId g) b name' avatar' g1 in
  (name' = name -> rejects r g1 DuplicateNickname) /\
  (name' ≠ name ->
     outcome r = Ok tt /\
     exists s u u',
       heap (final r) !! length (heap g) = Some s /\
       users s = [u; u'] /\
       username u = name /\ host u = true /\
       username u' = name' /\ host u' = false).
Proof.
  intros g1 r. subst r g1. rewrite createSession_run.
  unfold rejects, outcome, final, trace. cbn [fst snd].
  set (l := length (heap g)). set (id := newSessionId g).
  set (s1 := after_add a name avatar true (Session_new id)).
  set (g1 := set_sockets _ _).
  assert (Hr : sessions g1 !! id = Some l) by (subst g1; simpl; apply lookup_insert_eq).
  assert (Hl : heap g1 !! l = Some s1).
  { subst g1 l. simpl. apply list_lookup_middle. reflexivity. }
  assert (Hw : waitingState s1 = true) by reflexivity.
  split.
  - intros ->.
    rewrite (join_taken _ _ _ _ _ _ _ Hr Hl Hw).
    + apply (rejects_throw (A := unit)). reflexivity.
    + subst s1. simpl. apply list_elem_of_here.
  - intros Hne.
    assert (Hn : name' ∉ username <$> users s1).
    { subst s1. simpl. intros H. apply elem_of_cons in H. destruct H as [H | H].
      - contradiction.
      - apply not_elem_of_nil in H. exact H. }
    rewrite (join_new _ _ _ _ _ _ _ Hr Hl Hw Hn).
    cbn [fst snd]. split; [reflexivity|].
    eexists _, _, _. split; [eapply store_lookup, Hl|].
    subst s1. simpl. repeat split.
Qed.

(** ** Commands without a session or a user *)

(** X3. On a connection with no bound session, vote, startgame, choose and
    choosebest all fail with "no session".  With a session but no bound
    user, vote and startgame fail with "no user" whatever the status;
    choose and choosebest test the status first, so they fail with
    "you can't choose" in a status that does not match and with "no user"
    only in the matching one. *)
Theorem missing_context (socket : nat) (g : Game) :
  (session (getSocket socket g) = None ->
     forall text userId,
       Game_vote socket text g = (Throw "no session", g, []) /\
       Game_startGame socket g = (Throw "no session", g, []) /\
       Game_choose userId socket g = (Throw "no session", g, []) /\
       Game_chooseBest userId socket g = (Throw "no session", g, [])) /\
  (forall l s,
     session (getSocket socket g) = Some l ->
     heap g !! l = Some s ->
     user (getSocket socket g) = None ->
     forall text userId,
       Game_vote socket text g = (Throw "no user", g, []) /\
       Game_startGame socket g = (Throw "no user", g, []) /\
       Game_choose userId socket g =
         (Throw (if bool_decide (status s = choosing)
                 then "no user" else "you can't choose"), g, []) /\
       Game_chooseBest userId socket g =
         (Throw (if bool_decide (status s = choosingbest)
                 then "no user" else "you can't choose"), g, [])) /\
  kind_of "no session" = Some MissingContext /\
  kind_of "no user" = Some MissingContext /\
  kind_of "you can't choose" = Some InvalidPhase.
Proof.
  split; [|split; [|repeat split]].
  - intros Hs text userId.
    unfold Game_vote, Game_startGame, Game_choose, Game_chooseBest, bind, get.
    rewrite Hs. repeat split.
  - intros l s Hs Hl Hu text userId.
    rewrite (choose_run _ _ _ _ _ Hs Hl), (chooseBest_run _ _ _ _ _ Hs Hl), Hu.
    split; [unfold Game_vote; unfold bind at 1, get; rewrite Hs, Hu; reflexivity|].
    split; [unfold Game_startGame; unfold bind at 1, get; rewrite Hs, Hu; reflexivity|].
    split.
    + destruct (decide (status s = choosing)) as [E | E].
      * rewrite (bool_decide_eq_true_2 _ E).
        rewrite bool_decide_eq_false_2 by (intros H; exact (H E)). reflexivity.
      * rewrite (bool_decide_eq_false_2 _ E), (bool_decide_eq_true_2 _ E). reflexivity.
    + destruct (decide (status s = choosingbest)) as [E | E].
      * rewrite (bool_decide_eq_true_2 _ E).
        rewrite bool_decide_eq_false_2 by (intros H; exact (H E)). reflexivity.
      * rewrite (bool_decide_eq_false_2 _ E), (bool_decide_eq_true_2 _ E). reflexivity.
Qed.

(** ** Joining a game that has started *)

(** X4. A join with a username the session does not know is refused with
    "game is started already" once the status is neither [waiting] nor
    [end]; nothing is changed and nobody is told. *)
Theorem join_started_game_refused (sessionId : string) (socket : nat) (name : string)
    (avatar : nat) (g : Game) (l : nat) (s : Session) :
  sessions g !! sessionId = Some l ->
  heap g !! l = Some s ->
  status s ≠ waiting ->
  status s ≠ ended ->
  name ∉ username <$> users s ->
  Game_joinSession sessionId socket name avatar g =
    (Throw "game is started already", g, []) /\
  kind_of "game is started already" = Some InvalidPhase.
Proof.
  intros Hr Hl H1 H2 Hn. split; [|reflexivity].
  apply (join_started _ _ _ _ _ _ _ Hr Hl); [|exact Hn].
  apply waitingState_false. split; assumption.
Qed.


(** ** What a command leaves alone *)

Section Keeps.
Context {X : Type} (view : Game -> X).

Lemma keeps_ret {A} (a : A) : keeps view (ret a).
Proof. intros g. reflexivity. Qed.

Lemma keeps_throw {A} (msg : string) : keeps view (throw (A := A) msg).
Proof. intros g. reflexivity. Qed.

Lemma keeps_stuck {A} : keeps view (stuck (A := A)).
Proof. intros g. reflexivity. Qed.

Lemma keeps_get : keeps view get.
Proof. intros g. reflexivity. Qed.

Lemma keeps_tell (a : Action) : keeps view (tell a).
Proof. intros g. reflexivity. Qed.

Lemma keeps_send_through (k : option nat) (u : User) (p : Payload) :
  keeps view (send_through k u p).
Proof. destruct k; [apply keeps_tell | apply keeps_throw]. Qed.

Lemma keeps_bind {A B} (m : Eff Game Action A) (k : A -> Eff Game Action B) :
  keeps view m -> (forall a, keeps view (k a)) -> keeps view (bind m k).
Proof.
  intros Hm Hk g. specialize (Hm g). unfold bind, final in *.
  destruct (m g) as [[[a| |] g1] t1]; simpl in *; try exact Hm.
  specialize (Hk a g1). unfold final in Hk.
  destruct (k a g1) as [[r g2] t2]. simpl in *. congruence.
Qed.

Lemma keeps_modify (f : Game -> Game) :
  (forall g, view (f g) = view g) -> keeps view (modify f).
Proof. intros Hf g. apply Hf. Qed.

Lemma keeps_deref (l : nat) : keeps view (deref l).
Proof. intros g. unfold deref. destruct (heap g !! l); reflexivity. Qed.

Lemma keeps_onSession {A} (l : nat) (m : Eff Session Send A) :
  (forall g s, view (store l s g) = view g) -> keeps view (onSession l m).
Proof.
  intros Hs g. unfold onSession. destruct (heap g !! l) as [s|]; [|reflexivity].
  destruct (m s) as [[r s'] t]. apply Hs.
Qed.

Lemma keeps_forEach_from {A} (f : nat -> A -> Eff Game Action unit) (l : list A) :
  (forall i x, keeps view (f i x)) -> forall k, keeps view (forEach_from k f l).
Proof.
  intros Hf. induction l as [|x l IH]; intros k; simpl.
  - apply keeps_ret.
  - apply keeps_bind; [apply Hf | intros _; apply IH].
Qed.

End Keeps.

(** Taking a program of a handler apart, down to its writes. *)
Ltac keeps_step :=
  first
    [ apply keeps_ret | apply keeps_throw | apply keeps_stuck | apply keeps_get
    | apply keeps_tell | apply keeps_deref | apply keeps_send_through
    | apply keeps_bind; [| intros ?]
    | apply keeps_forEach_from; intros ? ?
    | match goal with
      | |- keeps _ ?m =>
          match m with context [match ?x with _ => _ end] => destruct x end
      end ].

Ltac keeps_all :=
  unfold Game_onSessionEnd, join_announce, join_broadcast, forEach, eventBus_on,
    callSession, derefUser, set_socket_session, set_socket_user, socket_on_close;
  repeat keeps_step.

Lemma final_bind_get {A} (k : Game -> Eff Game Action A) (g : Game) :
  final (bind get k g) = final (k g g).
Proof. unfold bind, get, final. destruct (k g g) as [[r g'] t]. reflexivity. Qed.

Lemma final_bind_modify {A} (f : Game -> Game) (k : unit -> Eff Game Action A) (g : Game) :
  final (bind (modify f) k g) = final (k tt (f g)).
Proof. unfold bind, modify, final. destruct (k tt (f g)) as [[r g'] t]. reflexivity. Qed.

(** The one lemma behind the three that follow: a view of the game that
    the writes of a command do not reach is the same after the command. *)
Lemma handle_keeps {X} (view : Game -> X) (e : ServerEvent.t) (g : Game) :
  (forall l, touched e g = Some l -> forall g1 s, view (store l s g1) = view g1) ->
  (forall g1 sk, view (set_sockets (<[socket_of e := sk]> (sockets g1)) g1) = view g1) ->
  (forall socket name avatar, e = ServerEvent.createsession socket name avatar ->
     (forall s, view (set_heap (heap g ++ [s]) g) = view g) /\
     (forall g1 m, view (set_sessions m g1) = view g1)) ->
  (forall socket, e = ServerEvent.lostconnection socket ->
     forall g1 m, view (set_sessions m g1) = view g1) ->
  view (final (Game_handle e g)) = view g.
Proof.
  intros Hstore Hsock Hcreate Hlost.
  destruct e as [socket name avatar | sessionId socket name avatar | userId socket
                 | userId socket | socket | socket text | socket]; simpl in *.
  - destruct (Hcreate socket name avatar eq_refl) as [Halloc Hreg].
    unfold Game_createSession. rewrite final_bind_get.
    rewrite final_bind_modify.
    match goal with
    | |- view (final (?k ?g1)) = _ =>
        transitivity (view g1); [|apply Halloc];
        assert (K : keeps view k); [|apply K]
    end.
    specialize (Hstore _ eq_refl). keeps_all.
    all: try (apply keeps_onSession; exact Hstore).
    all: apply keeps_modify; intros g1; first [apply Hsock | apply Hreg].
  - unfold Game_joinSession. rewrite final_bind_get.
    destruct (sessions g !! sessionId) as [l|]; [|reflexivity].
    specialize (Hstore l eq_refl).
    match goal with |- view (final (?m g)) = _ => assert (K : keeps view m); [|apply K] end.
    keeps_all.
    all: try (apply keeps_onSession; exact Hstore).
    all: apply keeps_modify; intros g1; apply Hsock.
  - unfold Game_choose. rewrite final_bind_get.
    destruct (session (getSocket socket g)) as [l|]; [|reflexivity].
    specialize (Hstore l eq_refl).
    match goal with |- view (final (?m g)) = _ => assert (K : keeps view m); [|apply K] end.
    keeps_all.
    all: apply keeps_onSession; exact Hstore.
  - unfold Game_chooseBest. rewrite final_bind_get.
    destruct (session (getSocket socket g)) as [l|]; [|reflexivity].
    specialize (Hstore l eq_refl).
    match goal with |- view (final (?m g)) = _ => assert (K : keeps view m); [|apply K] end.
    keeps_all.
    all: apply keeps_onSession; exact Hstore.
  - unfold Game_startGame. rewrite final_bind_get.
    destruct (session (getSocket socket g)) as [l|]; [|reflexivity].
    specialize (Hstore l eq_refl).
    match goal with |- view (final (?m g)) = _ => assert (K : keeps view m); [|apply K] end.
    keeps_all.
    all: apply keeps_onSession; exact Hstore.
  - unfold Game_vote. rewrite final_bind_get.
    destruct (session (getSocket socket g)) as [l|]; [|reflexivity].
    specialize (Hstore l eq_refl).
    match goal with |- view (final (?m g)) = _ => assert (K : keeps view m); [|apply K] end.
    keeps_all.
    all: apply keeps_onSession; exact Hstore.
  - unfold Game_disconnectUser. rewrite final_bind_get.
    destruct (session (getSocket socket g)) as [l|]; [|reflexivity].
    specialize (Hstore l eq_refl). specialize (Hlost socket eq_refl).
    match goal with |- view (final (?m g)) = _ => assert (K : keeps view m); [|apply K] end.
    keeps_all.
    all: try (apply keeps_onSession; exact Hstore).
    all: apply keeps_modify; intros g1; first [apply Hsock | apply Hlost].
Qed.


(** X10. A command changes no connection but the one it arrived on: the
    session and user bound to any other connection, and its close
    listeners, are as before, whatever the outcome. *)
Theorem other_connections_untouched (e : ServerEvent.t) (g : Game) (k : nat) :
  k ≠ socket_of e ->
  sockets (final (Game_handle e g)) !! k = sockets g !! k /\
  getSocket k (final (Game_handle e g)) = getSocket k g.
Proof.
  intros Hk.
  assert (H : sockets (final (Game_handle e g)) !! k = sockets g !! k).
  { apply (handle_keeps (fun g => sockets g !! k)).
    - intros l _ g1 s. reflexivity.
    - intros g1 sk. simpl. apply lookup_insert_ne. congruence.
    - intros socket name avatar _. split; intros; reflexivity.
    - intros socket _ g1 m. reflexivity. }
  split; [exact H|]. unfold getSocket. rewrite H. reflexivity.
Qed.

(** X11. A command changes no Session object but the one it works on. *)
Theorem other_sessions_untouched (e : ServerEvent.t) (g : Game) (l : nat) :
  touched e g ≠ Some l ->
  heap (final (Game_handle e g)) !! l = heap g !! l.
Proof.
  intros Hl.
  apply (handle_keeps (fun g => heap g !! l)).
  - intros l' Ht g1 s. simpl. apply list_lookup_insert_ne. congruence.
  - intros g1 sk. reflexivity.
  - intros socket name avatar ->. simpl in Hl. split; [|intros; reflexivity].
    intros s. simpl.
    destruct (decide (l < length (heap g))) as [Hlt | Hge].
    + apply lookup_app_l. exact Hlt.
    + assert (length (heap g) < l) by (assert (length (heap g) ≠ l) by congruence; lia).
      rewrite !lookup_ge_None_2; [reflexivity | lia | rewrite length_app; simpl; lia].
  - intros socket _ g1 m. reflexivity.
Qed.

(** X12. Only createsession and lostconnection write to the registry: every
    other command leaves it as it is, whether it succeeds or fails. *)
Theorem registry_untouched (e : ServerEvent.t) (g : Game) :
  registry_command e = false ->
  sessions (final (Game_handle e g)) = sessions g.
Proof.
  intros He.
  apply (handle_keeps sessions).
  - intros l _ g1 s. reflexivity.
  - intros g1 sk. reflexivity.
  - intros socket name avatar ->. discriminate.
  - intros socket ->. discriminate.
Qed.


(** ** What the join loop sends *)

Lemma sends_gather_from (f : nat -> User -> Send) (us : list User) (k : nat) :
  sends (gather_from k (fun i u => [Sent (f i u)]) us) = imap (fun i => f (k + i)) us.
Proof.
  revert k. induction us as [|u us IH]; intros k; simpl.
  - reflexivity.
  - rewrite Nat.add_0_r. f_equal. rewrite IH. apply imap_ext.
    intros i x _. simpl. f_equal. lia.
Qed.

Lemma sends_join_messages (s : Session) (nu : User) :
  sends (join_messages s nu) = imap (join_message s nu) (users s).
Proof.
  unfold join_messages, gather.
  apply (sends_gather_from (join_message s nu)).
Qed.

(** X5. After a join that succeeds, the loop has sent one message per user of
    the session, in list order: [joined], with the recipient's own hand
    and the prompt card, to every user whose id is the id of the user who
    joined, and [userjoined] to the others.  The user who joined is in the
    list and is sent [joined] through the joining connection, on which one
    more close listener is registered. *)
Theorem join_broadcast_kinds (sessionId : string) (socket : nat) (name : string)
    (avatar : nat) (g : Game) (l : nat) (s : Session) :
  sessions g !! sessionId = Some l ->
  heap g !! l = Some s ->
  let r := Game_joinSession sessionId socket name avatar g in
  outcome r = Ok tt ->
  exists s' j nu,
    heap (final r) !! l = Some s' /\
    user (getSocket socket (final r)) = Some j /\
    users s' !! j = Some nu /\
    username nu = name /\
    sends (trace r) = imap (join_message s' nu) (users s') /\
    sends (trace r) !! j =
      Some (UserSend nu (Some socket)
              (joined (sid s') (status s') (uid nu) (users s')
                      (getUserWhitecards s' j) (redCard s'))) /\
    closeListeners (getSocket socket (final r)) = S (closeListeners (getSocket socket g)).
Proof.
  intros Hr Hl r. subst r.
  assert (G : forall s' j nu t c,
    users s' !! j = Some nu -> getUserSocket s' j = Some socket ->
    t = Call l c :: join_messages s' nu ->
    sends t = imap (join_message s' nu) (users s') /\
    sends t !! j =
      Some (UserSend nu (Some socket)
              (joined (sid s') (status s') (uid nu) (users s')
                      (getUserWhitecards s' j) (redCard s')))).
  { intros s' j nu t c Hj Hk ->. simpl. rewrite sends_join_messages.
    split; [reflexivity|].
    rewrite list_lookup_imap, Hj. simpl. unfold join_message.
    rewrite Hk, bool_decide_eq_true_2 by reflexivity. reflexivity. }
  destruct (waitingState s) eqn:Hw;
    destruct (decide (name ∈ username <$> users s)) as [Hn | Hn].
  - rewrite (join_taken _ _ _ _ _ _ _ Hr Hl Hw Hn). discriminate.
  - rewrite (join_new _ _ _ _ _ _ _ Hr Hl Hw Hn).
    set (s' := after_add socket name avatar false s).
    set (nu := mkUser (newUserId s) name avatar false false false false).
    unfold outcome, final, trace. cbn [fst snd]. intros Ho.
    rewrite (join_loop_Ok_trace _ _ Ho).
    assert (Hj : users s' !! length (users s) = Some nu).
    { subst s'. simpl. apply list_lookup_middle. reflexivity. }
    assert (Hk : getUserSocket s' (length (users s)) = Some socket).
    { subst s'. unfold getUserSocket. simpl. apply lookup_insert_eq. }
    destruct (G s' _ nu _ (addUser socket name avatar false) Hj Hk eq_refl) as [G1 G2].
    destruct (announced_socket socket l (length (users s)) (join_loop s' nu).1
                (store l s' g)) as (Hb1 & Hb2).
    exists s', (length (users s)), nu.
    split; [rewrite announced_heap; eapply store_lookup, Hl|]. split; [exact Hb2|].
    split; [exact Hj|]. split; [reflexivity|].
    split; [exact G1|]. split; [exact G2|].
    rewrite announced_listeners, Ho. reflexivity.
  - apply named_find in Hn. destruct Hn as (i & u & Hf).
    rewrite (join_reconnect _ _ _ _ _ _ _ _ _ Hr Hl Hw Hf).
    set (s' := after_reconnect socket i avatar u s).
    set (nu := set_avatarId avatar (set_disconnected false u)).
    unfold outcome, final, trace. cbn [fst snd]. intros Ho.
    rewrite (join_loop_Ok_trace _ _ Ho).
    apply list_find_Some in Hf. destruct Hf as (Hi & Hu & _).
    assert (Hj : users s' !! i = Some nu).
    { subst s'. simpl. apply list_lookup_insert_eq. eapply lookup_lt_Some, Hi. }
    assert (Hk : getUserSocket s' i = Some socket).
    { subst s'. unfold getUserSocket. simpl. apply lookup_insert_eq. }
    destruct (G s' _ nu _ (reconnectUser socket i avatar) Hj Hk eq_refl) as [G1 G2].
    destruct (announced_socket socket l i (join_loop s' nu).1 (store l s' g))
      as (Hb1 & Hb2).
    exists s', i, nu.
    split; [rewrite announced_heap; eapply store_lookup, Hl|]. split; [exact Hb2|].
    split; [exact Hj|]. split; [exact Hu|].
    split; [exact G1|]. split; [exact G2|].
    rewrite announced_listeners, Ho. reflexivity.
  - rewrite (join_started _ _ _ _ _ _ _ Hr Hl Hw Hn). discriminate.
Qed.

(** ** Failing before the session is reached *)

Lemma disconnectUser_unbound (socket : nat) (g : Game) :
  session (getSocket socket g) = None \/ user (getSocket socket g) = None ->
  Game_disconnectUser socket g = (Ok tt, g, []).
Proof.
  intros H. unfold Game_disconnectUser, bind, get, ret. simpl.
  destruct H as [H | H]; rewrite H; [reflexivity|].
  destruct (session (getSocket socket g)); reflexivity.
Qed.

Lemma disconnectUser_never_throws (socket : nat) (g : Game) (msg : string) :
  outcome (Game_disconnectUser socket g) ≠ Throw msg.
Proof.
  destruct (session (getSocket socket g)) as [l|] eqn:Hs.
  2: { rewrite disconnectUser_unbound by (left; exact Hs). discriminate. }
  destruct (user (getSocket socket g)) as [i|] eqn:Hu.
  2: { rewrite disconnectUser_unbound by (right; exact Hu). discriminate. }
  destruct (heap g !! l) as [s|] eqn:Hl.
  2: { unfold Game_disconnectUser. unfold bind at 1, get. rewrite Hs, Hu.
       unfold bind at 1, callSession, bind at 1, tell, onSession. rewrite Hl.
       discriminate. }
  destruct (users s !! i) as [u|] eqn:Hi.
  - rewrite (disconnectUser_run _ _ _ _ _ _ Hs Hu Hl Hi). discriminate.
  - unfold Game_disconnectUser. unfold bind at 1, get. rewrite Hs, Hu.
    unfold bind at 1. rewrite (callSession_run _ _ _ _ _ Hl).
    unfold Session_disconnectUser, bind at 1, get. rewrite Hi. discriminate.
Qed.

(** X6. A command that throws without having called a method of the session
    has changed nothing and sent nothing: every test of a handler of
    [Game] comes before its first write. *)
Theorem rejection_is_atomic (e : ServerEvent.t) (g : Game) (msg : string) :
  outcome (Game_handle e g) = Throw msg ->
  calls (trace (Game_handle e g)) = [] ->
  final (Game_handle e g) = g /\ trace (Game_handle e g) = [].
Proof.
  destruct e as [socket name avatar | sessionId socket name avatar | userId socket
                 | userId socket | socket | socket text | socket]; simpl.
  - rewrite createSession_run. discriminate.
  - destruct (sessions g !! sessionId) as [l|] eqn:Hr.
    2: { rewrite (join_unknown _ _ _ _ _ Hr). intros _ _. split; reflexivity. }
    destruct (heap g !! l) as [s|] eqn:Hl.
    2: { unfold Game_joinSession. unfold bind at 1, get. rewrite Hr.
         unfold bind at 1, deref. rewrite Hl. discriminate. }
    destruct (waitingState s) eqn:Hw;
      destruct (decide (name ∈ username <$> users s)) as [Hn | Hn].
    + rewrite (join_taken _ _ _ _ _ _ _ Hr Hl Hw Hn). intros _ _. split; reflexivity.
    + rewrite (join_new _ _ _ _ _ _ _ Hr Hl Hw Hn). discriminate.
    + apply named_find in Hn. destruct Hn as (i & u & Hf).
      rewrite (join_reconnect _ _ _ _ _ _ _ _ _ Hr Hl Hw Hf). discriminate.
    + rewrite (join_started _ _ _ _ _ _ _ Hr Hl Hw Hn). intros _ _. split; reflexivity.
  - destruct (session (getSocket socket g)) as [l|] eqn:Hs.
    2: { unfold Game_choose, bind, get. rewrite Hs. intros _ _. split; reflexivity. }
    destruct (heap g !! l) as [s|] eqn:Hl.
    2: { unfold Game_choose. unfold bind at 1, get. rewrite Hs.
         unfold bind at 1, deref. rewrite Hl. discriminate. }
    rewrite (choose_run _ _ _ _ _ Hs Hl).
    destruct (bool_decide (status s ≠ choosing)); [intros _ _; split; reflexivity|].
    destruct (user (getSocket socket g)) as [i|]; [|intros _ _; split; reflexivity].
    destruct (users s !! i) as [u|]; [|discriminate].
    destruct (negb (master u)); [intros _ _; split; reflexivity|].
    rewrite (callSession_run _ _ _ _ _ Hl). intros _. discriminate.
  - destruct (session (getSocket socket g)) as [l|] eqn:Hs.
    2: { unfold Game_chooseBest, bind, get. rewrite Hs. intros _ _. split; reflexivity. }
    destruct (heap g !! l) as [s|] eqn:Hl.
    2: { unfold Game_chooseBest. unfold bind at 1, get. rewrite Hs.
         unfold bind at 1, deref. rewrite Hl. discriminate. }
    rewrite (chooseBest_run _ _ _ _ _ Hs Hl).
    destruct (bool_decide (status s ≠ choosingbest)); [intros _ _; split; reflexivity|].
    destruct (user (getSocket socket g)) as [i|]; [|intros _ _; split; reflexivity].
    destruct (users s !! i) as [u|]; [|discriminate].
    destruct (negb (master u)); [intros _ _; split; reflexivity|].
    rewrite (callSession_run _ _ _ _ _ Hl). intros _. discriminate.
  - destruct (session (getSocket socket g)) as [l|] eqn:Hs.
    2: { unfold Game_startGame, bind, get. rewrite Hs. intros _ _. split; reflexivity. }
    destruct (user (getSocket socket g)) as [i|] eqn:Hu.
    2: { unfold Game_startGame, bind, get. rewrite Hs, Hu. intros _ _. split; reflexivity. }
    destruct (heap g !! l) as [s|] eqn:Hl.
    2: { unfold Game_startGame. unfold bind at 1, get. rewrite Hs, Hu.
         unfold bind at 1, derefUser, bind at 1, deref. rewrite Hl. discriminate. }
    destruct (users s !! i) as [u|] eqn:Hi.
    2: { unfold Game_startGame. unfold bind at 1, get. rewrite Hs, Hu.
         unfold bind at 1, derefUser, bind at 1, deref. rewrite Hl, Hi. discriminate. }
    rewrite (startGame_run _ _ _ _ _ _ Hs Hu Hl Hi).
    destruct (negb (host u)); [intros _ _; split; reflexivity|].
    destruct (_ && _); [intros _ _; split; reflexivity|].
    intros _. discriminate.
  - destruct (session (getSocket socket g)) as [l|] eqn:Hs.
    2: { unfold Game_vote, bind, get. rewrite Hs. intros _ _. split; reflexivity. }
    destruct (user (getSocket socket g)) as [i|] eqn:Hu.
    2: { unfold Game_vote, bind, get. rewrite Hs, Hu. intros _ _. split; reflexivity. }
    destruct (heap g !! l) as [s|] eqn:Hl.
    2: { unfold Game_vote. unfold bind at 1, get. rewrite Hs, Hu.
         unfold bind at 1, derefUser, bind at 1, deref. rewrite Hl. discriminate. }
    destruct (users s !! i) as [u|] eqn:Hi.
    2: { unfold Game_vote. unfold bind at 1, get. rewrite Hs, Hu.
         unfold bind at 1, derefUser, bind at 1, deref. rewrite Hl, Hi. discriminate. }
    rewrite (vote_run _ _ _ _ _ _ _ Hs Hu Hl Hi).
    destruct (master u); [intros _ _; split; reflexivity|].
    destruct (bool_decide _); [intros _ _; split; reflexivity|].
    destruct (negb _); [intros _ _; split; reflexivity|].
    destruct (voted u); [intros _ _; split; reflexivity|].
    rewrite (callSession_run _ _ _ _ _ Hl). intros _. discriminate.
  - intros H. exfalso. eapply disconnectUser_never_throws, H.
Qed.

(** ** Losing a connection twice *)

(** X7. [Game.disconnectUser] runs for the lostconnection event and once for
    every close listener of the connection.  After a first run that
    returned, every further run on the same connection is a no-op. *)
Theorem disconnect_twice (socket : nat) (g : Game) :
  outcome (Game_disconnectUser socket g) = Ok tt ->
  Game_disconnectUser socket (final (Game_disconnectUser socket g))
    = (Ok tt, final (Game_disconnectUser socket g), []).
Proof.
  destruct (session (getSocket socket g)) as [l|] eqn:Hs.
  2: { intros _. rewrite (disconnectUser_unbound socket g) by (left; exact Hs).
       apply disconnectUser_unbound. left. exact Hs. }
  destruct (user (getSocket socket g)) as [i|] eqn:Hu.
  2: { intros _. rewrite (disconnectUser_unbound socket g) by (right; exact Hu).
       apply disconnectUser_unbound. right. exact Hu. }
  destruct (heap g !! l) as [s|] eqn:Hl.
  2: { unfold Game_disconnectUser at 1. unfold bind at 1, get. rewrite Hs, Hu.
       unfold bind at 1, callSession, bind at 1, tell, onSession. rewrite Hl.
       discriminate. }
  destruct (users s !! i) as [u|] eqn:Hi.
  - intros _. rewrite (disconnectUser_run _ _ _ _ _ _ Hs Hu Hl Hi).
    unfold final. cbn [fst snd].
    apply disconnectUser_unbound. left. rewrite getSocket_set. reflexivity.
  - unfold Game_disconnectUser at 1. unfold bind at 1, get. rewrite Hs, Hu.
    unfold bind at 1. rewrite (callSession_run _ _ _ _ _ Hl).
    unfold Session_disconnectUser, bind at 1, get. rewrite Hi. discriminate.
Qed.


(** ** The end of a session *)

Lemma emptied_iff (i : nat) (u : User) (s : Session) :
  users s !! i = Some u ->
  forallb disconnected (users (after_disconnect i u s)) = true <->
  forall j v, j ≠ i -> users s !! j = Some v -> disconnected v = true.
Proof.
  intros Hi. simpl. rewrite forallb_forall. split.
  - intros H j v Hj Hv. apply H. apply list_elem_of_In.
    apply list_elem_of_lookup. exists j. rewrite list_lookup_insert_ne by congruence.
    exact Hv.
  - intros H x Hx. apply list_elem_of_In, list_elem_of_lookup in Hx.
    destruct Hx as [j Hj]. apply list_lookup_insert_Some in Hj.
    destruct Hj as [(_ & <- & _) | (Hne & Hj)]; [reflexivity|].
    apply (H j x); [congruence | exact Hj].
Qed.

(** X8. When a connection bound to a session and a user is lost and every
    other user of the session is already disconnected, the session is torn
    down: its bus loses its listeners, its identifier leaves the registry,
    and a later join with that identifier fails with "session not found".
    While another user is still connected the registry and the bus are
    left as they are. *)
Theorem last_disconnect_ends_session (socket : nat) (g : Game) (l i : nat)
    (s : Session) (u : User) :
  session (getSocket socket g) = Some l ->
  user (getSocket socket g) = Some i ->
  heap g !! l = Some s ->
  users s !! i = Some u ->
  let r := Game_disconnectUser socket g in
  ((forall j v, j ≠ i -> users s !! j = Some v -> disconnected v = true) ->
     sessions (final r) = delete (sid s) (sessions g) /\
     trace r = [Call l (disconnectUser i); Call l clearListeners] /\
     (exists s', heap (final r) !! l = Some s' /\ eventBus s' = [] /\
                 Forall (fun v => disconnected v = true) (users s')) /\
     forall k name avatar,
       Game_joinSession (sid s) k name avatar (final r)
         = (Throw "session not found", final r, [])) /\
  (forall j v, j ≠ i /\ users s !! j = Some v /\ disconnected v = false ->
     sessions (final r) = sessions g /\
     trace r = [Call l (disconnectUser i)] /\
     exists s', heap (final r) !! l = Some s' /\ eventBus s' = eventBus s).
Proof.
  intros Hs Hu Hl Hi r. subst r.
  rewrite (disconnectUser_run _ _ _ _ _ _ Hs Hu Hl Hi).
  unfold final, trace. cbn [fst snd].
  assert (Hlt : l < length (heap g)) by (eapply lookup_lt_Some, Hl).
  split.
  - intros Hall'. pose proof (proj2 (emptied_iff i u s Hi) Hall') as Hall.
    rewrite Hall.
    split; [reflexivity|]. split; [reflexivity|]. split.
    + eexists. split; [simpl; apply list_lookup_insert_eq; exact Hlt|].
      split; [reflexivity|].
      apply Forall_forall. intros v Hv. rewrite forallb_forall in Hall.
      apply Hall. apply list_elem_of_In. exact Hv.
    + intros k name avatar. apply join_unknown. simpl. apply lookup_delete_eq.
  - intros j v (Hj & Hv & Hd).
    destruct (forallb disconnected (users (after_disconnect i u s))) eqn:E.
    { pose proof (proj1 (emptied_iff i u s Hi) E) as E'.
      rewrite (E' j v Hj Hv) in Hd. discriminate. }
    split; [reflexivity|]. split; [reflexivity|].
    eexists. split; [simpl; apply list_lookup_insert_eq; exact Hlt | reflexivity].
Qed.

(** ** A connection left behind by a reconnect *)

(** X9. [Game.joinSession] reconnects a returning user without asking whether
    the user is disconnected, and without touching the connection the
    user was on, whether the announcement of the join then returns or
    throws.  If that older connection is lost afterwards,
    [session.disconnectUser] is called for the same user object: the user
    who has just returned is marked disconnected and the session keeps no
    connection for it, while the new connection stays bound to it. *)
Theorem stale_connection_disconnects_returned_user (sessionId : string)
    (socket old : nat) (name : string) (avatar : nat) (g : Game) (l i : nat)
    (s : Session) (u : User) :
  sessions g !! sessionId = Some l ->
  heap g !! l = Some s ->
  status s ≠ waiting ->
  status s ≠ ended ->
  list_find (fun v => username v = name) (users s) = Some (i, u) ->
  session (getSocket old g) = Some l ->
  user (getSocket old g) = Some i ->
  old ≠ socket ->
  let r1 := Game_joinSession sessionId socket name avatar g in
  let r2 := Game_disconnectUser old (final r1) in
  (outcome r1 = Ok tt \/ outcome r1 = Throw TypeError_send) /\
  invoked l (reconnectUser socket i avatar) r1 /\
  outcome r2 = Ok tt /\
  invoked l (disconnectUser i) r2 /\
  session (getSocket socket (final r2)) = Some l /\
  user (getSocket socket (final r2)) = Some i /\
  exists s2 u2,
    heap (final r2) !! l = Some s2 /\
    users s2 !! i = Some u2 /\
    uid u2 = uid u /\
    disconnected u2 = true /\
    getUserSocket s2 i = None.
Proof.
  intros Hr Hl H1 H2 Hf Hos Hou Hne r1 r2. subst r2 r1.
  assert (Hw : waitingState s = false) by (apply waitingState_false; split; assumption).
  pose proof Hf as Hf'. apply list_find_Some in Hf'. destruct Hf' as (Hi & _ & _).
  assert (Hlt : l < length (heap g)) by (eapply lookup_lt_Some, Hl).
  assert (Hit : i < length (users s)) by (eapply lookup_lt_Some, Hi).
  rewrite (join_reconnect _ _ _ _ _ _ _ _ _ Hr Hl Hw Hf).
  unfold invoked, outcome, final, trace. cbn [fst snd].
  set (s' := after_reconnect socket i avatar u s).
  set (nu := set_avatarId avatar (set_disconnected false u)).
  set (g1 := announced socket l i (join_loop s' nu).1 (store l s' g)).
  assert (Hg : getSocket old g1 = getSocket old g).
  { subst g1. unfold announced, getSocket. simpl.
    rewrite lookup_insert_ne by congruence. reflexivity. }
  assert (Hs1 : session (getSocket old g1) = Some l) by (rewrite Hg; exact Hos).
  assert (Hu1 : user (getSocket old g1) = Some i) by (rewrite Hg; exact Hou).
  assert (Hl1 : heap g1 !! l = Some s').
  { subst g1. simpl. apply list_lookup_insert_eq. exact Hlt. }
  assert (Hi1 : users s' !! i = Some nu).
  { subst s'. simpl. apply list_lookup_insert_eq. exact Hit. }
  rewrite (disconnectUser_run _ _ _ _ _ _ Hs1 Hu1 Hl1 Hi1).
  cbn [fst snd].
  split; [apply join_loop_outcome|]. split; [apply list_elem_of_here|].
  split; [reflexivity|]. split; [apply list_elem_of_here|].
  assert (Hk : forall g2, sockets g2 = sockets g1 ->
            getSocket socket
              (set_sockets (<[old := mkSocket None None (closeListeners (getSocket old g1))]>
                              (sockets g1)) g2)
            = getSocket socket g1).
  { intros g2 _. unfold getSocket. simpl. rewrite lookup_insert_ne by congruence.
    reflexivity. }
  destruct (announced_socket socket l i (join_loop s' nu).1 (store l s' g))
    as (Hb1 & Hb2). fold g1 in Hb1, Hb2.
  assert (Hl' : length (heap g1) = length (heap g)).
  { subst g1. simpl. apply length_insert. }
  assert (Hi' : length (users s') = length (users s)).
  { subst s'. simpl. apply length_insert. }
  assert (Hx : users (after_disconnect i nu s') !! i = Some (set_disconnected true nu)).
  { unfold after_disconnect. cbn [users set_users set_userSockets].
    apply list_lookup_insert_eq. rewrite Hi'. exact Hit. }
  assert (Hy : getUserSocket (after_disconnect i nu s') i = None).
  { unfold getUserSocket, after_disconnect. cbn [userSockets set_userSockets].
    apply lookup_delete_eq. }
  destruct (forallb disconnected (users (after_disconnect i nu s'))).
  - rewrite Hk by reflexivity. split; [exact Hb1|]. split; [exact Hb2|].
    exists (set_eventBus [] (after_disconnect i nu s')), (set_disconnected true nu).
    split; [exact (store_lookup _ _ _ _ Hl1)|].
    split; [exact Hx|]. split; [reflexivity|]. split; [reflexivity | exact Hy].
  - rewrite Hk by reflexivity. split; [exact Hb1|]. split; [exact Hb2|].
    exists (after_disconnect i nu s'), (set_disconnected true nu).
    split; [exact (store_lookup _ _ _ _ Hl1)|].
    split; [exact Hx|]. split; [reflexivity|]. split; [reflexivity | exact Hy].
Qed.

(** ** The starting and voting broadcasts *)


(** No phase listener changes the session it reads. *)
Lemma runListener_final (l : Listener) (s : Session) : final (runListener l s) = s.
Proof.
  destruct l; simpl.
  - rewrite starting_listener_run. reflexivity.
  - apply voting_listener_final.
  - rewrite choosing_listener_run. reflexivity.
  - rewrite choosingbest_listener_run. reflexivity.
Qed.


(** ** References stay valid *)

Lemma wf_store (l : nat) (s s' : Session) (g : Game) :
  well_formed g ->
  heap g !! l = Some s ->
  length (users s) <= length (users s') ->
  well_formed (store l s' g).
Proof.
  intros [Hreg Hsock] Hl Hlen. split.
  - intros id l0 H. simpl. rewrite length_insert. apply (Hreg id l0 H).
  - intros k l0 Hk. destruct (Hsock k l0 Hk) as (s0 & Hs0 & Hi).
    destruct (decide (l0 = l)) as [-> | Hne].
    + exists s'. split; [eapply store_lookup, Hl|].
      intros i Hu. assert (s0 = s) by congruence. subst s0.
      specialize (Hi i Hu). lia.
    + exists s0. split; [|exact Hi].
      simpl. rewrite list_lookup_insert_ne by congruence. exact Hs0.
Qed.

Lemma wf_set_socket (k : nat) (sk : Socket) (g : Game) :
  well_formed g ->
  (forall l, session sk = Some l ->
     exists s, heap g !! l = Some s /\
               forall i, user sk = Some i -> i < length (users s)) ->
  well_formed (set_sockets (<[k := sk]> (sockets g)) g).
Proof.
  intros [Hreg Hsock] Hsk. split; [exact Hreg|].
  intros k' l. unfold getSocket. simpl.
  destruct (decide (k = k')) as [<- | Hne].
  - rewrite lookup_insert_eq. simpl. apply Hsk.
  - rewrite lookup_insert_ne by exact Hne. apply Hsock.
Qed.

Lemma wf_set_sessions_insert (id : string) (l : nat) (g : Game) :
  well_formed g -> l < length (heap g) ->
  well_formed (set_sessions (<[id := l]> (sessions g)) g).
Proof.
  intros [Hreg Hsock] Hl. split; [|exact Hsock].
  intros id' l'. simpl. destruct (decide (id = id')) as [<- | Hne].
  - rewrite lookup_insert_eq. intros [= <-]. exact Hl.
  - rewrite lookup_insert_ne by exact Hne. apply Hreg.
Qed.

Lemma wf_set_sessions_delete (id : string) (g : Game) :
  well_formed g -> well_formed (set_sessions (delete id (sessions g)) g).
Proof.
  intros [Hreg Hsock]. split; [|exact Hsock].
  intros id' l'. simpl. intros H. apply lookup_delete_Some in H.
  destruct H as [_ H]. apply (Hreg id' l' H).
Qed.

Lemma wf_alloc (s : Session) (g : Game) :
  well_formed g -> well_formed (set_heap (heap g ++ [s]) g).
Proof.
  intros [Hreg Hsock]. split.
  - intros id l H. simpl. rewrite length_app. specialize (Hreg id l H). lia.
  - intros k l Hk. destruct (Hsock k l Hk) as (s0 & Hs0 & Hi).
    exists s0. split; [|exact Hi]. simpl.
    rewrite lookup_app_l by (eapply lookup_lt_Some, Hs0). exact Hs0.
Qed.

Lemma wf_bound (k l : nat) (g : Game) :
  well_formed g -> session (getSocket k g) = Some l ->
  exists s, heap g !! l = Some s /\
    forall i, user (getSocket k g) = Some i -> exists u, users s !! i = Some u.
Proof.
  intros [_ Hsock] Hk. destruct (Hsock k l Hk) as (s & Hs & Hi).
  exists s. split; [exact Hs|]. intros i Hu.
  apply lookup_lt_is_Some_2. apply Hi. exact Hu.
Qed.

Lemma Session_startGame_keeps_users (s : Session) :
  eventBus s = phase_listeners ->
  length (users (final (Session_startGame s))) = length (users s) /\
  outcome (Session_startGame s) ≠ Stuck.
Proof.
  intros H. rewrite (Session_startGame_run s H).
  unfold final, outcome. cbn [fst snd]. split.
  - simpl. apply length_imap.
  - rewrite voting_listener_run. destruct (truthy _); [discriminate|].
    destruct (forallb _ _); discriminate.
Qed.

(** ** Connections and the [disconnected] mark *)

Lemma connections_match_same (s s' : Session) :
  userSockets s' = userSockets s ->
  (forall i, disconnected <$> users s' !! i = disconnected <$> users s !! i) ->
  connections_match s -> connections_match s'.
Proof.
  intros Hk Hd Hm i u' Hi. specialize (Hd i). rewrite Hi in Hd. simpl in Hd.
  destruct (users s !! i) as [u|] eqn:Hu; [|discriminate].
  injection Hd as Hd. unfold getUserSocket. rewrite Hk, Hd. apply (Hm i u Hu).
Qed.

Lemma connections_match_add (socket : nat) (name : string) (avatar : nat) (h : bool)
    (s : Session) :
  connections_match s -> connections_match (after_add socket name avatar h s).
Proof.
  intros Hm i u Hi. unfold after_add, getUserSocket in *. simpl in *.
  destruct (decide (i = length (users s))) as [-> | Hne].
  - rewrite lookup_insert_eq.
    rewrite list_lookup_middle in Hi by reflexivity. injection Hi as <-.
    split; [eauto | reflexivity].
  - rewrite lookup_insert_ne by congruence.
    assert (Hlt : i < length (users s)).
    { apply lookup_lt_Some in Hi. rewrite length_app in Hi. simpl in Hi. lia. }
    rewrite lookup_app_l in Hi by exact Hlt. apply (Hm i u Hi).
Qed.

Lemma connections_match_reconnect (socket i avatar : nat) (u : User) (s : Session) :
  users s !! i = Some u ->
  connections_match s -> connections_match (after_reconnect socket i avatar u s).
Proof.
  intros Hu Hm j v Hj. unfold after_reconnect, getUserSocket in *. simpl in *.
  destruct (decide (j = i)) as [-> | Hne].
  - rewrite lookup_insert_eq.
    rewrite list_lookup_insert_eq in Hj by (eapply lookup_lt_Some, Hu).
    injection Hj as <-. split; [eauto | reflexivity].
  - rewrite lookup_insert_ne by congruence.
    rewrite list_lookup_insert_ne in Hj by congruence. apply (Hm j v Hj).
Qed.

Lemma connections_match_disconnect (i : nat) (u : User) (s : Session) :
  users s !! i = Some u ->
  connections_match s -> connections_match (after_disconnect i u s).
Proof.
  intros Hu Hm j v Hj. unfold after_disconnect, getUserSocket in *. simpl in *.
  destruct (decide (j = i)) as [-> | Hne].
  - rewrite lookup_delete_eq.
    rewrite list_lookup_insert_eq in Hj by (eapply lookup_lt_Some, Hu).
    injection Hj as <-. split; [discriminate | intros [x Hx]; discriminate].
  - rewrite lookup_delete_ne by congruence.
    rewrite list_lookup_insert_ne in Hj by congruence. apply (Hm j v Hj).
Qed.

Lemma connections_match_startGame (s : Session) :
  eventBus s = phase_listeners ->
  connections_match s -> connections_match (final (Session_startGame s)).
Proof.
  intros H. rewrite (Session_startGame_run s H). unfold final. cbn [fst snd].
  apply connections_match_same; [reflexivity|].
  intros i. simpl. rewrite list_lookup_imap.
  destruct (users s !! i); reflexivity.
Qed.

Lemma connections_store (l : nat) (s' : Session) (g : Game) :
  connections_valid g -> connections_match s' -> connections_valid (store l s' g).
Proof.
  intros Hg Hs l0 s0 H. simpl in H. apply list_lookup_insert_Some in H.
  destruct H as [(_ & <- & _) | (_ & H)]; [exact Hs | eapply Hg, H].
Qed.

Lemma gather_from_Forall_at {A T} (P : T -> Prop) (h : nat -> A -> list T) (l : list A) :
  forall k,
    (forall i x, l !! i = Some x -> Forall P (h (k + i) x)) ->
    Forall P (gather_from k h l).
Proof.
  induction l as [|x l IH]; intros k Hh; simpl.
  - constructor.
  - apply Forall_app. split.
    + specialize (Hh 0 x eq_refl). rewrite Nat.add_0_r in Hh. exact Hh.
    + apply IH. intros i y Hi. specialize (Hh (S i) y Hi).
      rewrite Nat.add_succ_r in Hh. exact Hh.
Qed.

Lemma to_connected_through_connection (s : Session) (p : nat -> Payload) :
  connections_match s -> Forall through_connection (to_connected s p).
Proof.
  intros Hm. unfold to_connected, gather. apply gather_from_Forall_at.
  intros i u Hi. simpl. destruct (disconnected u) eqn:Hd; [constructor|].
  destruct (proj1 (Hm i u Hi) Hd) as [k Hk]. rewrite Hk.
  constructor; [|constructor]. exists u, k, (p i). reflexivity.
Qed.

(** With the connections and the marks in step, every message of a phase
    listener goes through a connection the session holds. *)
Lemma phase_sends_through_connection (lis : Listener) (s : Session) :
  connections_match s -> Forall through_connection (trace (runListener lis s)).
Proof.
  intros Hm. destruct lis; simpl.
  - rewrite starting_listener_run. apply to_connected_through_connection, Hm.
  - rewrite voting_listener_run. destruct (truthy (redCard s)).
    + apply to_connected_through_connection, Hm.
    + constructor.
  - rewrite choosing_listener_run. apply to_connected_through_connection, Hm.
  - rewrite choosingbest_listener_run. apply to_connected_through_connection, Hm.
Qed.

(** With the connections and the marks in step, the loop of a join throws
    exactly when a user of the session is marked disconnected. *)
Lemma join_loop_throws_iff (s : Session) (nu : User) :
  connections_match s ->
  ((join_loop s nu).1 = Throw TypeError_send <->
   exists u, u ∈ users s /\ disconnected u = true).
Proof.
  intros Hm. split.
  - intros Ht.
    destruct (decide (Exists (fun u => disconnected u = true) (users s))) as [Hx | Hx].
    + apply Exists_exists in Hx. exact Hx.
    + exfalso. assert (Hc : every_user_connected s).
      { intros i Hi. destruct (lookup_lt_is_Some_2 _ _ Hi) as [u Hu].
        apply (Hm i u Hu). destruct (disconnected u) eqn:Hd; [|reflexivity].
        exfalso. apply Hx. apply Exists_exists. exists u.
        split; [eapply list_elem_of_lookup_2, Hu | exact Hd]. }
      rewrite (join_loop_connected s nu Hc) in Ht. discriminate.
  - intros (u & Hu & Hd). apply list_elem_of_lookup_1 in Hu. destruct Hu as [i Hi].
    apply (join_loop_throws s nu i); [eapply lookup_lt_Some, Hi|].
    destruct (getUserSocket s i) as [k|] eqn:Hk; [|reflexivity].
    assert (Hf : disconnected u = false) by (apply (Hm i u Hi); eauto).
    congruence.
Qed.

(** With valid references and the connections and the marks in step, a
    join command ends in the [TypeError] exactly when it has passed the
    tests and a user of the session it leaves is marked disconnected. *)
Lemma join_throws_iff (sessionId : string) (socket : nat) (name : string)
    (avatar : nat) (g : Game) :
  well_formed g ->
  connections_valid g ->
  let r := Game_joinSession sessionId socket name avatar g in
  outcome r = Throw TypeError_send <->
    trace r ≠ [] /\
    exists l s' u,
      sessions g !! sessionId = Some l /\ heap (final r) !! l = Some s' /\
      u ∈ users s' /\ disconnected u = true.
Proof.
  intros Hwf Hc r. subst r.
  destruct (sessions g !! sessionId) as [l|] eqn:Hr.
  2: { rewrite (join_unknown _ _ _ _ _ Hr). unfold outcome, trace. cbn [fst snd].
       split; [discriminate | intros [H _]; contradiction]. }
  assert (Hlt : l < length (heap g)) by (destruct Hwf as [Hreg _]; eapply Hreg, Hr).
  destruct (lookup_lt_is_Some_2 _ _ Hlt) as [s Hl].
  assert (G : forall s' nu (i : nat) (c : SessionCall),
    connections_match s' ->
    (join_loop s' nu).1 = Throw TypeError_send <->
      Call l c :: (join_loop s' nu).2 ≠ [] /\
      exists l0 s0 u,
        Some l = Some l0 /\
        heap (announced socket l i (join_loop s' nu).1 (store l s' g)) !! l0 = Some s0 /\
        u ∈ users s0 /\ disconnected u = true).
  { intros s' nu i c Hm. rewrite (join_loop_throws_iff s' nu Hm). split.
    - intros (u & Hu & Hd). split; [discriminate|].
      exists l, s', u. split; [reflexivity|].
      split; [rewrite announced_heap; eapply store_lookup, Hl|]. split; assumption.
    - intros (_ & l0 & s0 & u & [= <-] & H0 & Hu & Hd).
      rewrite announced_heap, (store_lookup _ _ _ _ Hl) in H0. injection H0 as <-.
      exists u. split; assumption. }
  destruct (waitingState s) eqn:Hw;
    destruct (decide (name ∈ username <$> users s)) as [Hn | Hn].
  - rewrite (join_taken _ _ _ _ _ _ _ Hr Hl Hw Hn). unfold outcome, trace. cbn [fst snd].
    split; [discriminate | intros [H _]; contradiction].
  - rewrite (join_new _ _ _ _ _ _ _ Hr Hl Hw Hn).
    unfold outcome, final, trace. cbn [fst snd].
    apply (G _ _ (length (users s)) (addUser socket name avatar false)).
    apply connections_match_add, (Hc l s Hl).
  - apply named_find in Hn. destruct Hn as (i & u & Hf).
    rewrite (join_reconnect _ _ _ _ _ _ _ _ _ Hr Hl Hw Hf).
    unfold outcome, final, trace. cbn [fst snd].
    apply list_find_Some in Hf. destruct Hf as (Hi & _ & _).
    apply (G _ _ i (reconnectUser socket i avatar)).
    apply (connections_match_reconnect _ _ _ _ _ Hi), (Hc l s Hl).
  - rewrite (join_started _ _ _ _ _ _ _ Hr Hl Hw Hn). unfold outcome, trace. cbn [fst snd].
    split; [discriminate | intros [H _]; contradiction].
Qed.

Section Invariant.
Context {disciplined : Disciplined collab}.

(** Each handler keeps the connections and the marks in step. *)
Lemma handle_keeps_connections (e : ServerEvent.t) (g : Game) :
  well_formed g ->
  connections_valid g ->
  connections_valid (final (Game_handle e g)).
Proof.
  intros Hwf Hc.
  destruct e as [socket name avatar | sessionId socket name avatar | userId socket
                 | userId socket | socket | socket text | socket]; simpl.
  - rewrite createSession_run. unfold final. cbn [fst snd].
    intros l s H. simpl in H. apply lookup_app_Some in H.
    destruct H as [H | [_ H]]; [eapply Hc, H|].
    apply list_lookup_singleton_Some in H. destruct H as [_ <-].
    apply connections_match_add. intros i u Hi. simpl in Hi.
    rewrite lookup_nil in Hi. discriminate.
  - destruct (sessions g !! sessionId) as [l|] eqn:Hr.
    2: { rewrite (join_unknown _ _ _ _ _ Hr). exact Hc. }
    assert (Hlt : l < length (heap g)) by (destruct Hwf as [Hreg _]; eapply Hreg, Hr).
    destruct (lookup_lt_is_Some_2 _ _ Hlt) as [s Hl].
    destruct (waitingState s) eqn:Hw;
      destruct (decide (name ∈ username <$> users s)) as [Hn | Hn].
    + rewrite (join_taken _ _ _ _ _ _ _ Hr Hl Hw Hn). exact Hc.
    + rewrite (join_new _ _ _ _ _ _ _ Hr Hl Hw Hn).
      unfold final. cbn [fst snd].
      apply (connections_store l _ g Hc).
      apply connections_match_add, (Hc l s Hl).
    + apply named_find in Hn. destruct Hn as (i & u & Hf).
      rewrite (join_reconnect _ _ _ _ _ _ _ _ _ Hr Hl Hw Hf).
      unfold final. cbn [fst snd].
      apply list_find_Some in Hf. destruct Hf as (Hi & _ & _).
      apply (connections_store l _ g Hc).
      apply (connections_match_reconnect _ _ _ _ _ Hi), (Hc l s Hl).
    + rewrite (join_started _ _ _ _ _ _ _ Hr Hl Hw Hn). exact Hc.
  - destruct (session (getSocket socket g)) as [l|] eqn:Hs.
    2: { unfold Game_choose, bind, get. rewrite Hs. exact Hc. }
    destruct (wf_bound _ _ _ Hwf Hs) as (s & Hl & Hu).
    rewrite (choose_run _ _ _ _ _ Hs Hl).
    destruct (bool_decide (status s ≠ choosing)); [exact Hc|].
    destruct (user (getSocket socket g)) as [i|]; [|exact Hc].
    destruct (Hu i eq_refl) as [u Hi]. rewrite Hi.
    destruct (negb (master u)); [exact Hc|].
    rewrite (callSession_run _ _ _ _ _ Hl). unfold final at 1. cbn [fst snd].
    apply (connections_store l _ g Hc), choose_keeps_connections, (Hc l s Hl).
  - destruct (session (getSocket socket g)) as [l|] eqn:Hs.
    2: { unfold Game_chooseBest, bind, get. rewrite Hs. exact Hc. }
    destruct (wf_bound _ _ _ Hwf Hs) as (s & Hl & Hu).
    rewrite (chooseBest_run _ _ _ _ _ Hs Hl).
    destruct (bool_decide (status s ≠ choosingbest)); [exact Hc|].
    destruct (user (getSocket socket g)) as [i|]; [|exact Hc].
    destruct (Hu i eq_refl) as [u Hi]. rewrite Hi.
    destruct (negb (master u)); [exact Hc|].
    rewrite (callSession_run _ _ _ _ _ Hl). unfold final at 1. cbn [fst snd].
    apply (connections_store l _ g Hc), chooseBest_keeps_connections, (Hc l s Hl).
  - destruct (session (getSocket socket g)) as [l|] eqn:Hs.
    2: { unfold Game_startGame, bind, get. rewrite Hs. exact Hc. }
    destruct (wf_bound _ _ _ Hwf Hs) as (s & Hl & Hu).
    destruct (user (getSocket socket g)) as [i|] eqn:Hui.
    2: { unfold Game_startGame, bind, get. rewrite Hs, Hui. exact Hc. }
    destruct (Hu i eq_refl) as [u Hi].
    rewrite (startGame_run _ _ _ _ _ _ Hs Hui Hl Hi).
    destruct (negb (host u)); [exact Hc|].
    destruct (_ && _); [exact Hc|].
    cbv zeta. unfold final at 1. cbn [fst snd].
    apply (connections_store l _ g Hc).
    apply (connections_match_startGame (set_eventBus phase_listeners s) eq_refl).
    apply (connections_match_same s); [reflexivity | reflexivity | exact (Hc l s Hl)].
  - destruct (session (getSocket socket g)) as [l|] eqn:Hs.
    2: { unfold Game_vote, bind, get. rewrite Hs. exact Hc. }
    destruct (wf_bound _ _ _ Hwf Hs) as (s & Hl & Hu).
    destruct (user (getSocket socket g)) as [i|] eqn:Hui.
    2: { unfold Game_vote, bind, get. rewrite Hs, Hui. exact Hc. }
    destruct (Hu i eq_refl) as [u Hi].
    rewrite (vote_run _ _ _ _ _ _ _ Hs Hui Hl Hi).
    destruct (master u); [exact Hc|].
    destruct (bool_decide _); [exact Hc|].
    destruct (negb _); [exact Hc|].
    destruct (voted u); [exact Hc|].
    rewrite (callSession_run _ _ _ _ _ Hl). unfold final at 1. cbn [fst snd].
    apply (connections_store l _ g Hc), vote_keeps_connections, (Hc l s Hl).
  - destruct (session (getSocket socket g)) as [l|] eqn:Hs.
    2: { rewrite disconnectUser_unbound by (left; exact Hs). exact Hc. }
    destruct (wf_bound _ _ _ Hwf Hs) as (s & Hl & Hu).
    destruct (user (getSocket socket g)) as [i|] eqn:Hui.
    2: { rewrite disconnectUser_unbound by (right; exact Hui). exact Hc. }
    destruct (Hu i eq_refl) as [u Hi].
    rewrite (disconnectUser_run _ _ _ _ _ _ Hs Hui Hl Hi).
    unfold final. cbn [fst snd].
    pose proof (connections_match_disconnect i u s Hi (Hc l s Hl)) as Hd.
    destruct (forallb disconnected (users (after_disconnect i u s))).
    + apply (connections_store l _ g Hc).
      apply (connections_match_same (after_disconnect i u s));
        [reflexivity | reflexivity | exact Hd].
    + apply (connections_store l _ g Hc). exact Hd.
Qed.

(** Each handler keeps the references of the game valid, and with valid
    references it never reads through a missing one. *)
Lemma handle_keeps_well_formed (e : ServerEvent.t) (g : Game) :
  well_formed g ->
  well_formed (final (Game_handle e g)) /\ outcome (Game_handle e g) ≠ Stuck.
Proof.
  intros Hwf.
  destruct e as [socket name avatar | sessionId socket name avatar | userId socket
                 | userId socket | socket | socket text | socket]; simpl.
  - rewrite createSession_run. unfold final, outcome. cbn [fst snd].
    split; [|discriminate].
    set (s1 := after_add socket name avatar true (Session_new (newSessionId g))).
    assert (W : well_formed (set_heap (heap g ++ [s1]) g)) by (apply wf_alloc, Hwf).
    assert (Hl : heap (set_heap (heap g ++ [s1]) g) !! length (heap g) = Some s1).
    { simpl. apply list_lookup_middle. reflexivity. }
    apply (wf_set_socket socket _
             (set_sessions (<[newSessionId g := length (heap g)]> (sessions g))
                (set_heap (heap g ++ [s1]) g))).
    + apply (wf_set_sessions_insert _ _ (set_heap (heap g ++ [s1]) g) W).
      eapply lookup_lt_Some, Hl.
    + intros l [= <-]. exists s1. split; [exact Hl|].
      intros i [= <-]. simpl. lia.
  - destruct (sessions g !! sessionId) as [l|] eqn:Hr.
    2: { rewrite (join_unknown _ _ _ _ _ Hr). split; [exact Hwf | discriminate]. }
    assert (Hlt : l < length (heap g)) by (destruct Hwf as [Hreg _]; eapply Hreg, Hr).
    destruct (lookup_lt_is_Some_2 _ _ Hlt) as [s Hl].
    destruct (waitingState s) eqn:Hw;
      destruct (decide (name ∈ username <$> users s)) as [Hn | Hn].
    + rewrite (join_taken _ _ _ _ _ _ _ Hr Hl Hw Hn). split; [exact Hwf | discriminate].
    + rewrite (join_new _ _ _ _ _ _ _ Hr Hl Hw Hn).
      unfold final, outcome. cbn [fst snd].
      split; [|destruct (join_loop_outcome (after_add socket name avatar false s)
                  (mkUser (newUserId s) name avatar false false false false))
                 as [E | E]; rewrite E; discriminate].
      set (s' := after_add socket name avatar false s).
      unfold announced. cbv zeta.
      assert (W : well_formed (store l s' g)).
      { apply (wf_store l s s' g Hwf Hl). subst s'. simpl. rewrite length_app. lia. }
      apply (wf_set_socket socket _ (store l s' g) W).
      intros l0 [= <-]. exists s'. split; [eapply store_lookup, Hl|].
      intros i [= <-]. subst s'. simpl. rewrite length_app. simpl. lia.
    + apply named_find in Hn. destruct Hn as (i & u & Hf).
      rewrite (join_reconnect _ _ _ _ _ _ _ _ _ Hr Hl Hw Hf).
      unfold final, outcome. cbn [fst snd].
      split; [|destruct (join_loop_outcome (after_reconnect socket i avatar u s)
                  (set_avatarId avatar (set_disconnected false u)))
                 as [E | E]; rewrite E; discriminate].
      apply list_find_Some in Hf. destruct Hf as (Hi & _ & _).
      set (s' := after_reconnect socket i avatar u s).
      unfold announced. cbv zeta.
      assert (Hlen : length (users s') = length (users s)).
      { subst s'. simpl. apply length_insert. }
      assert (W : well_formed (store l s' g)).
      { apply (wf_store l s s' g Hwf Hl). lia. }
      apply (wf_set_socket socket _ (store l s' g) W).
      intros l0 [= <-]. exists s'. split; [eapply store_lookup, Hl|].
      intros j [= <-]. rewrite Hlen. eapply lookup_lt_Some, Hi.
    + rewrite (join_started _ _ _ _ _ _ _ Hr Hl Hw Hn). split; [exact Hwf | discriminate].
  - destruct (session (getSocket socket g)) as [l|] eqn:Hs.
    2: { unfold Game_choose, bind, get. rewrite Hs. split; [exact Hwf | discriminate]. }
    destruct (wf_bound _ _ _ Hwf Hs) as (s & Hl & Hu).
    rewrite (choose_run _ _ _ _ _ Hs Hl).
    destruct (bool_decide (status s ≠ choosing)); [split; [exact Hwf | discriminate]|].
    destruct (user (getSocket socket g)) as [i|]; [|split; [exact Hwf | discriminate]].
    destruct (Hu i eq_refl) as [u Hi]. rewrite Hi.
    destruct (negb (master u)); [split; [exact Hwf | discriminate]|].
    rewrite (callSession_run _ _ _ _ _ Hl). unfold final at 1, outcome at 1. cbn [fst snd].
    split; [apply (wf_store l s _ g Hwf Hl), choose_keeps_users | apply choose_not_stuck].
  - destruct (session (getSocket socket g)) as [l|] eqn:Hs.
    2: { unfold Game_chooseBest, bind, get. rewrite Hs. split; [exact Hwf | discriminate]. }
    destruct (wf_bound _ _ _ Hwf Hs) as (s & Hl & Hu).
    rewrite (chooseBest_run _ _ _ _ _ Hs Hl).
    destruct (bool_decide (status s ≠ choosingbest)); [split; [exact Hwf | discriminate]|].
    destruct (user (getSocket socket g)) as [i|]; [|split; [exact Hwf | discriminate]].
    destruct (Hu i eq_refl) as [u Hi]. rewrite Hi.
    destruct (negb (master u)); [split; [exact Hwf | discriminate]|].
    rewrite (callSession_run _ _ _ _ _ Hl). unfold final at 1, outcome at 1. cbn [fst snd].
    split; [apply (wf_store l s _ g Hwf Hl), chooseBest_keeps_users
           | apply chooseBest_not_stuck].
  - destruct (session (getSocket socket g)) as [l|] eqn:Hs.
    2: { unfold Game_startGame, bind, get. rewrite Hs. split; [exact Hwf | discriminate]. }
    destruct (wf_bound _ _ _ Hwf Hs) as (s & Hl & Hu).
    destruct (user (getSocket socket g)) as [i|] eqn:Hui.
    2: { unfold Game_startGame, bind, get. rewrite Hs, Hui.
         split; [exact Hwf | discriminate]. }
    destruct (Hu i eq_refl) as [u Hi].
    rewrite (startGame_run _ _ _ _ _ _ Hs Hui Hl Hi).
    destruct (negb (host u)); [split; [exact Hwf | discriminate]|].
    destruct (_ && _); [split; [exact Hwf | discriminate]|].
    cbv zeta. unfold final at 1, outcome at 1. cbn [fst snd].
    destruct (Session_startGame_keeps_users (set_eventBus phase_listeners s) eq_refl)
      as [Hlen Hns].
    split; [|exact Hns].
    apply (wf_store l s _ g Hwf Hl). rewrite Hlen. simpl. lia.
  - destruct (session (getSocket socket g)) as [l|] eqn:Hs.
    2: { unfold Game_vote, bind, get. rewrite Hs. split; [exact Hwf | discriminate]. }
    destruct (wf_bound _ _ _ Hwf Hs) as (s & Hl & Hu).
    destruct (user (getSocket socket g)) as [i|] eqn:Hui.
    2: { unfold Game_vote, bind, get. rewrite Hs, Hui. split; [exact Hwf | discriminate]. }
    destruct (Hu i eq_refl) as [u Hi].
    rewrite (vote_run _ _ _ _ _ _ _ Hs Hui Hl Hi).
    destruct (master u); [split; [exact Hwf | discriminate]|].
    destruct (bool_decide _); [split; [exact Hwf | discriminate]|].
    destruct (negb _); [split; [exact Hwf | discriminate]|].
    destruct (voted u); [split; [exact Hwf | discriminate]|].
    rewrite (callSession_run _ _ _ _ _ Hl). unfold final at 1, outcome at 1. cbn [fst snd].
    split; [apply (wf_store l s _ g Hwf Hl), vote_keeps_users|].
    apply vote_not_stuck. eapply lookup_lt_Some, Hi.
  - destruct (session (getSocket socket g)) as [l|] eqn:Hs.
    2: { rewrite disconnectUser_unbound by (left; exact Hs).
         split; [exact Hwf | discriminate]. }
    destruct (wf_bound _ _ _ Hwf Hs) as (s & Hl & Hu).
    destruct (user (getSocket socket g)) as [i|] eqn:Hui.
    2: { rewrite disconnectUser_unbound by (right; exact Hui).
         split; [exact Hwf | discriminate]. }
    destruct (Hu i eq_refl) as [u Hi].
    rewrite (disconnectUser_run _ _ _ _ _ _ Hs Hui Hl Hi).
    unfold final, outcome. cbn [fst snd]. split; [|discriminate].
    assert (Hlen : length (users (after_disconnect i u s)) = length (users s)).
    { simpl. apply length_insert. }
    destruct (forallb disconnected (users (after_disconnect i u s))).
    + apply (wf_set_socket socket _
               (set_sessions (delete (sid (after_disconnect i u s)) (sessions g))
                  (store l (set_eventBus [] (after_disconnect i u s)) g))).
      * apply (wf_set_sessions_delete _
                 (store l (set_eventBus [] (after_disconnect i u s)) g)).
        apply (wf_store l s _ g Hwf Hl). simpl. rewrite length_insert. lia.
      * intros l0 H. discriminate.
    + apply (wf_set_socket socket _ (store l (after_disconnect i u s) g)).
      * apply (wf_store l s _ g Hwf Hl). lia.
      * intros l0 H. discriminate.
Qed.


End Invariant.

End More.

(** ** The sample collaborators are disciplined *)

Lemma forEach_from_quiet {St T A} (f : nat -> A -> Eff St T unit) (l : list A) :
  (forall i x s, final (f i x s) = s /\ outcome (f i x s) ≠ Stuck) ->
  forall k s, final (forEach_from k f l s) = s /\ outcome (forEach_from k f l s) ≠ Stuck.
Proof.
  intros Hf. induction l as [|x l IH]; intros k s; simpl.
  - split; [reflexivity | discriminate].
  - destruct (Hf k x s) as [H1 H2]. unfold bind, final, outcome in *.
    destruct (f k x s) as [[[[]| |] s1] t1]; simpl in *; subst.
    + destruct (IH (S k) s) as [H3 H4]. unfold final, outcome in *.
      destruct (forEach_from (S k) f l s) as [[r s2] t2]. simpl in *.
      split; assumption.
    + split; [reflexivity | discriminate].
    + contradiction.
Qed.

Lemma Session_emit_quiet (event : string) (s : Session) :
  final (Session_emit event s) = s /\ outcome (Session_emit event s) ≠ Stuck.
Proof.
  unfold Session_emit, bind, get.
  destruct (forEach_from_quiet (fun (_ : nat) l => runListener l)
              (EventBus_handlers event (eventBus s))) with (k := 0) (s := s)
    as [H1 H2].
  - intros _ l s0. split; [apply runListener_final|].
    destruct l; simpl.
    + rewrite starting_listener_run. discriminate.
    + rewrite voting_listener_run. destruct (truthy _); [discriminate|].
      destruct (forallb _ _); discriminate.
    + rewrite choosing_listener_run. discriminate.
    + rewrite choosingbest_listener_run. discriminate.
  - unfold forEach, final, outcome in *.
    destruct (forEach_from 0 _ _ s) as [[r s'] t]. simpl in *. split; assumption.
Qed.

Lemma modify_then_emit (f : Session -> Session) (event : string) (s : Session) :
  final ((modify f >> Session_emit event) s) = f s /\
  outcome ((modify f >> Session_emit event) s) ≠ Stuck.
Proof.
  destruct (Session_emit_quiet event (f s)) as [H1 H2].
  unfold bind, modify, final, outcome in *.
  destruct (Session_emit event (f s)) as [[r s'] t]. simpl in *. split; assumption.
Qed.

Lemma sample_vote_eq (i : nat) (text : string) (s : Session) (u : User) :
  users s !! i = Some u ->
  let s1 := set_votes (votes s ++ [(uid u, text)])
              (set_whiteCards
                 (<[i := filter (fun c => c ≠ text) (getUserWhitecards s i)]> (whiteCards s))
                 (set_users (<[i := set_voted true u]> (users s)) s)) in
  sample_vote i text s =
    if forallb (fun v => master v || voted v || disconnected v) (users s1)
    then (modify (set_status choosing) >> Session_emit "choosing") s1
    else (Ok tt, s1, []).
Proof.
  intros Hi s1. unfold sample_vote. unfold bind at 1, get. rewrite Hi.
  unfold bind at 1, modify at 1. fold s1. unfold bind at 1, get.
  destruct (forallb _ (users s1)).
  - destruct ((modify (set_status choosing) >> Session_emit "choosing") s1)
      as [[r s'] t]. reflexivity.
  - reflexivity.
Qed.

Lemma sample_vote_run (i : nat) (text : string) (s : Session) :
  length (users (final (sample_vote i text s))) = length (users s) /\
  (i < length (users s) -> outcome (sample_vote i text s) ≠ Stuck).
Proof.
  destruct (users s !! i) as [u|] eqn:Hi.
  - rewrite (sample_vote_eq i text s u Hi). cbv zeta.
    destruct (forallb _ _).
    + match goal with
      | |- context [(modify ?f >> Session_emit ?e) ?x] =>
          destruct (modify_then_emit f e x) as [H1 H2]
      end.
      rewrite H1. simpl. rewrite length_insert. split; [reflexivity|].
      intros _. exact H2.
    + simpl. rewrite length_insert. split; [reflexivity | discriminate].
  - split.
    + unfold sample_vote. unfold bind at 1, get. rewrite Hi. reflexivity.
    + intros Hlt. apply lookup_ge_None in Hi. lia.
Qed.

Lemma sample_vote_connections (i : nat) (text : string) (s : Session) :
  connections_match s -> connections_match (final (sample_vote i text s)).
Proof.
  intros Hm. destruct (users s !! i) as [u|] eqn:Hi.
  - rewrite (sample_vote_eq i text s u Hi). cbv zeta.
    assert (Hs : connections_match
              (set_votes (votes s ++ [(uid u, text)])
                 (set_whiteCards
                    (<[i := filter (fun c => c ≠ text) (getUserWhitecards s i)]>
                       (whiteCards s))
                    (set_users (<[i := set_voted true u]> (users s)) s)))).
    { apply (connections_match_same s); [reflexivity | | exact Hm].
      intros j. simpl. destruct (decide (j = i)) as [-> | Hne].
      - rewrite list_lookup_insert_eq by (eapply lookup_lt_Some, Hi).
        rewrite Hi. reflexivity.
      - rewrite list_lookup_insert_ne by congruence. reflexivity. }
    destruct (forallb _ _).
    + match goal with
      | |- context [(modify ?f >> Session_emit ?e) ?x] =>
          destruct (modify_then_emit f e x) as [H1 _]
      end.
      rewrite H1. revert Hs. apply connections_match_same; reflexivity.
    + exact Hs.
  - unfold sample_vote. unfold bind at 1, get. rewrite Hi. exact Hm.
Qed.

#[global] Instance sample_disciplined : Disciplined sample.
Proof.
  split; simpl.
  - apply sample_vote_connections.
  - intros userId s. unfold sample_choose.
    destruct (modify_then_emit (set_status choosingbest) "choosingbest" s) as [H _].
    rewrite H. apply connections_match_same; reflexivity.
  - intros userId s. apply connections_match_same; reflexivity.
  - intros i text s. destruct (sample_vote_run i text s) as [H _]. lia.
  - intros userId s. unfold sample_choose.
    destruct (modify_then_emit (set_status choosingbest) "choosingbest" s) as [H _].
    rewrite H. simpl. lia.
  - intros userId s. simpl. lia.
  - intros i text s. apply sample_vote_run.
  - intros userId s. unfold sample_choose.
    apply (modify_then_emit (set_status choosingbest) "choosingbest" s).
  - intros userId s. discriminate.
Qed.

(** ** The further properties at the sample runs *)

Lemma create_then_join_witness :
  outcome
    (Game_joinSession (collab := sample) (newSessionId (Collaborators := sample) Game_new)
       2 "bob" 1
       (final (Game_createSession (collab := sample) 1 "alice" 0 Game_new))) = Ok tt.
Proof.
  destruct (create_then_join (collab := sample) 1 2 "alice" "bob" 0 1 Game_new)
    as [_ H].
  destruct H as [H _]; [discriminate | exact H].
Defined.

Lemma missing_context_witness :
  Game_vote (collab := sample) 9 "w1a" Run.g_voting = (Throw "no session", Run.g_voting, []).
Proof.
  destruct (missing_context (collab := sample) 9 Run.g_voting) as [H _].
  destruct (H ltac:(run) "w1a" "u1") as [H1 _]. exact H1.
Defined.

Lemma join_started_game_refused_witness :
  Game_joinSession (collab := sample) "room0" 4 "dave" 3 Run.g_voting =
    (Throw "game is started already", Run.g_voting, []).
Proof.
  apply (join_started_game_refused (collab := sample) "room0" 4 "dave" 3 Run.g_voting 0
           (Run.room Run.g_voting)); [run | run | run | run |].
  vm_compute. intros Hin.
  repeat (apply elem_of_cons in Hin; destruct Hin as [Hin | Hin]; [discriminate|]).
  apply not_elem_of_nil in Hin. exact Hin.
Defined.

Lemma other_connections_untouched_witness :
  getSocket 3 (final (Game_handle (collab := sample) (ServerEvent.lostconnection 2)
                        Run.g_voting))
    = getSocket 3 Run.g_voting.
Proof.
  apply (other_connections_untouched (collab := sample) (ServerEvent.lostconnection 2)
           Run.g_voting 3).
  simpl. lia.
Defined.

Lemma other_sessions_untouched_witness :
  heap (final (Game_handle (collab := sample) (ServerEvent.createsession 5 "erin" 4)
                 Run.g_voting)) !! 0
    = heap Run.g_voting !! 0.
Proof.
  apply (other_sessions_untouched (collab := sample) (ServerEvent.createsession 5 "erin" 4)
           Run.g_voting 0).
  run.
Defined.

Lemma registry_untouched_witness :
  sessions (final (Game_handle (collab := sample) (ServerEvent.startgame 1) Run.g_lobby))
    = sessions Run.g_lobby.
Proof.
  apply (registry_untouched (collab := sample) (ServerEvent.startgame 1) Run.g_lobby).
  reflexivity.
Defined.

Lemma join_broadcast_kinds_witness :
  exists s' j nu,
    heap (final (Game_joinSession (collab := sample) "room0" 4 "dave" 3 Run.g_lobby)) !! 0
      = Some s' /\
    users s' !! j = Some nu /\ username nu = "dave".
Proof.
  destruct (join_broadcast_kinds (collab := sample) "room0" 4 "dave" 3 Run.g_lobby 0
              (Run.room Run.g_lobby)) as (s' & j & nu & H1 & _ & H2 & H3 & _);
    [run | run | run |].
  exists s', j, nu. repeat split; assumption.
Defined.

Lemma rejection_is_atomic_witness :
  final (Game_handle (collab := sample) (ServerEvent.vote 1 "w0a") Run.g_voting)
    = Run.g_voting /\
  trace (Game_handle (collab := sample) (ServerEvent.vote 1 "w0a") Run.g_voting) = [].
Proof.
  apply (rejection_is_atomic (collab := sample) (ServerEvent.vote 1 "w0a") Run.g_voting
           "master can't vote"); run.
Defined.

Lemma disconnect_twice_witness :
  Game_disconnectUser 2 (final (Game_disconnectUser 2 Run.g_voting))
    = (Ok tt, final (Game_disconnectUser 2 Run.g_voting), []).
Proof.
  apply (disconnect_twice 2 Run.g_voting). run.
Defined.

Lemma last_disconnect_ends_session_witness :
  sessions (final (Game_disconnectUser 3 Run.g_dropped))
    = delete (sid (Run.room Run.g_dropped)) (sessions Run.g_dropped).
Proof.
  destruct (last_disconnect_ends_session (collab := sample) 3 Run.g_dropped 0 2 (Run.room Run.g_dropped)
              Run.carol) as [H _]; [run | run | run | run |].
  destruct H as [H _]; [|exact H].
  intros j v Hj Hv.
  destruct j as [|[|[|j]]]; vm_compute in Hv; try discriminate;
    try (injection Hv as <-; reflexivity).
  contradiction.
Defined.

Lemma stale_connection_disconnects_returned_user_witness :
  exists s2 u2,
    heap (final (Game_disconnectUser 2
                   (final (Game_joinSession (collab := sample) "room0" 4 "bob" 5
                             Run.g_voting)))) !! 0 = Some s2 /\
    users s2 !! 1 = Some u2 /\
    uid u2 = uid Run.bob /\
    disconnected u2 = true /\
    getUserSocket s2 1 = None.
Proof.
  destruct (stale_connection_disconnects_returned_user (collab := sample) "room0" 4 2
              "bob" 5 Run.g_voting 0 1 (Run.room Run.g_voting) Run.bob)
    as (_ & _ & _ & _ & _ & _ & H); [run | run | run | run | run | run | run | lia |].
  exact H.
Defined.


